(** * papermc-discord: the signed-webhook gateway and its lifecycle workers

    A shallow embedding of

    - [src/discord_webhook_app.py]           (module [discord_webhook_app]),
    - [src/lambda_func/discord_stop_instance.py]  (module [discord_stop_instance]),
    - [src/lambda_func/discord_check_instance.py] (module [discord_check_instance]),

    as functions in a small exception-and-trace monad (the Start worker,
    whose file is not among the sources, is modelled from the spec in
    [discord_start_instance]).  The services the
    handlers talk to (KMS, Lambda, EC2, the Discord webhook, PyNaCl, the JSON
    and base64 codecs) are not part of the repository: they are the fields of
    a record [World], whose answers a handler can only obtain through the
    calls its source makes, and every call that leaves the process is logged
    in order in a trace. *)

From stdpp Require Import base strings list gmap pretty.
From Stdlib Require Import ZArith Strings.Ascii Strings.Byte.

Set Warnings "-register-all".

Local Open Scope string_scope.
Local Open Scope Z_scope.
Local Open Scope list_scope.

(** ** Python values and exceptions *)

Module Py.

(** The exception classes the three handlers can meet, with the class each
    derives from ([mro], most specific first).  [Exception] is the root. *)
Inductive exn_class :=
| Exception
| KeyError | IndexError | TypeError | ValueError | RuntimeError
| JSONDecodeError | BinasciiError | UnicodeDecodeError
| BotoCoreError | ClientError
| NoCredentialsError | PartialCredentialsError
| ParamValidationError | EndpointConnectionError
| RequestException
| CryptoError | BadSignatureError.

#[global] Instance exn_class_eq_dec : EqDecision exn_class.
Proof. solve_decision. Defined.

Definition mro (c : exn_class) : list exn_class :=
  match c with
  | Exception => [Exception]
  | JSONDecodeError | BinasciiError | UnicodeDecodeError =>
      [c; ValueError; Exception]
  | NoCredentialsError | PartialCredentialsError
  | ParamValidationError | EndpointConnectionError =>
      [c; BotoCoreError; Exception]
  | BadSignatureError => [c; CryptoError; Exception]
  | _ => [c; Exception]
  end.

Definition issubclass (c d : exn_class) : bool := bool_decide (d ∈ mro c).

(** An exception object: its class, [str(e)], and the [__cause__] a
    [raise ... from e] records. *)
Inductive exn := Exn (cls : exn_class) (msg : string) (cause : option exn).

Definition exn_cls (e : exn) : exn_class := let 'Exn c _ _ := e in c.
Definition str (e : exn) : string := let 'Exn _ m _ := e in m.
Definition exn_cause (e : exn) : option exn := let 'Exn _ _ c := e in c.

(** [isinstance(e, (C1, ..., Cn))], the test of an [except] clause. *)
Definition isinstance (e : exn) (classes : list exn_class) : bool :=
  existsb (issubclass (exn_cls e)) classes.

(** [d[key]] on a missing key: [str(KeyError('k'))] is the key's repr. *)
Definition key_error (key : string) : exn :=
  Exn KeyError ("'" +:+ key +:+ "'") None.

(** What a call into a library or a service comes back with. *)
Inductive outcome (A : Type) := Ok (a : A) | Err (e : exn).
Arguments Ok {A} a.
Arguments Err {A} e.

(** A parsed JSON document as [json.loads] builds it: [dict], [list],
    [str], [int], [bool], [None].  (Numbers with a fraction or an exponent,
    which become Python floats, are left out: no field the handlers read is
    one.) *)
Inductive json :=
| JNull
| JBool (b : bool)
| JInt (n : Z)
| JStr (s : string)
| JList (l : list json)
| JDict (kv : list (string * json)).

(** [json.dumps(v)]: a response body is kept as the document it
    serialises. *)
Inductive json_text := json_dumps (v : json).

Fixpoint assoc (k : string) (kv : list (string * json)) : option json :=
  match kv with
  | [] => None
  | (k', v) :: rest => if String.eqb k k' then Some v else assoc k rest
  end.

(** [v[key]] with a string key. *)
Definition getitem (v : json) (key : string) : outcome json :=
  match v with
  | JDict kv =>
      match assoc key kv with
      | Some x => Ok x
      | None => Err (key_error key)
      end
  | JList _ => Err (Exn TypeError "list indices must be integers or slices, not str" None)
  | JStr _ => Err (Exn TypeError "string indices must be integers, not 'str'" None)
  | JNull => Err (Exn TypeError "'NoneType' object is not subscriptable" None)
  | JBool _ => Err (Exn TypeError "'bool' object is not subscriptable" None)
  | JInt _ => Err (Exn TypeError "'int' object is not subscriptable" None)
  end.

(** The bytes of the first character of a UTF-8 string: its lead byte and
    the continuation bytes ([10xxxxxx]) after it. *)
Fixpoint continuation (s : string) : string :=
  match s with
  | String a rest =>
      if (128 <=? Z.of_N (Ascii.N_of_ascii a)) && (Z.of_N (Ascii.N_of_ascii a) <? 192)
      then String a (continuation rest) else ""
  | EmptyString => ""
  end.

(** [v[0]]. *)
Definition getitem0 (v : json) : outcome json :=
  match v with
  | JList (x :: _) => Ok x
  | JList [] => Err (Exn IndexError "list index out of range" None)
  | JStr (String a rest) => Ok (JStr (String a (continuation rest)))
  | JStr EmptyString => Err (Exn IndexError "string index out of range" None)
  | JDict _ => Err (Exn KeyError "0" None)
  | JNull => Err (Exn TypeError "'NoneType' object is not subscriptable" None)
  | JBool _ => Err (Exn TypeError "'bool' object is not subscriptable" None)
  | JInt _ => Err (Exn TypeError "'int' object is not subscriptable" None)
  end.

(** [v == n] for an int literal [n]: [True == 1] and [False == 0] hold in
    Python, and a value of another type is never equal to an int. *)
Definition eq_int (v : json) (n : Z) : bool :=
  match v with
  | JInt m => m =? n
  | JBool b => Z.b2z b =? n
  | _ => false
  end.

(** [v == s] for a string literal [s]: exact string equality. *)
Definition eq_str (v : json) (s : string) : bool :=
  match v with
  | JStr t => String.eqb t s
  | _ => false
  end.

(** [bytes.fromhex]: pairs of hexadecimal digits, ASCII whitespace allowed
    between the pairs; anything else is a [ValueError]. *)
Definition hex_digit (a : Ascii.ascii) : option N :=
  let n := Ascii.N_of_ascii a in
  if ((48 <=? n) && (n <=? 57))%N then Some (n - 48)%N
  else if ((97 <=? n) && (n <=? 102))%N then Some (n - 87)%N
  else if ((65 <=? n) && (n <=? 70))%N then Some (n - 55)%N
  else None.

Definition is_space (a : Ascii.ascii) : bool :=
  let n := Ascii.N_of_ascii a in
  ((n =? 32) || ((9 <=? n) && (n <=? 13)))%N.

Definition byte_of_nibbles (top bot : N) : byte :=
  default x00 (Byte.of_N (16 * top + bot)).

Fixpoint fromhex_bytes (s : string) : option (list byte) :=
  match s with
  | EmptyString => Some []
  | String a rest =>
      if is_space a then fromhex_bytes rest
      else
        match hex_digit a, rest with
        | Some top, String b rest' =>
            match hex_digit b with
            | Some bot => cons (byte_of_nibbles top bot) <$> fromhex_bytes rest'
            | None => None
            end
        | _, _ => None
        end
  end.

(** The position the error message names (CPython 3.7 to 3.13): for a text
    with a character outside ASCII, the index of the first such character;
    otherwise the index of the character that is no hexadecimal digit, which
    is the length of the text when the last digit has no partner. *)
Fixpoint first_non_ascii (s : string) (pos : N) : option N :=
  match s with
  | EmptyString => None
  | String a rest =>
      if (128 <=? Ascii.N_of_ascii a)%N then Some pos
      else first_non_ascii rest (pos + 1)%N
  end.

Fixpoint first_non_hex (s : string) (pos : N) : N :=
  match s with
  | EmptyString => pos
  | String a rest =>
      if is_space a then first_non_hex rest (pos + 1)%N
      else
        match hex_digit a, rest with
        | None, _ => pos
        | Some _, EmptyString => (pos + 1)%N
        | Some _, String b rest' =>
            match hex_digit b with
            | None => (pos + 1)%N
            | Some _ => first_non_hex rest' (pos + 2)%N
            end
        end
  end.

Definition fromhex_error_position (s : string) : N :=
  match first_non_ascii s 0 with
  | Some pos => pos
  | None => first_non_hex s 0
  end.

Definition fromhex (s : string) : outcome (list byte) :=
  match fromhex_bytes s with
  | Some bs => Ok bs
  | None =>
      Err (Exn ValueError
             ("non-hexadecimal number found in fromhex() arg at position "
                +:+ pretty (fromhex_error_position s)) None)
  end.

(** [f"{x}"] for a value that is a [str] or [None]. *)
Definition format_opt (x : option string) : string := default "None" x.

End Py.
Export Py.

(** ** The world outside the process, and the trace of calls into it *)

(** The shape [ec2.describe_instances] answers in, as far as the handlers
    read it: [r["Reservations"][i]["Instances"][j]] with its
    [["State"]["Name"]] and its optional ["PublicIpAddress"]. *)
Record instance := {
  State_Name : string;
  PublicIpAddress : option string;
}.
Record reservation := { Instances : list instance }.
Record describe_response := { Reservations : list reservation }.

(** The calls that leave the process, in the order they are made. *)
Inductive call :=
| Kms_decrypt (CiphertextBlob : list byte) (LambdaFunctionName : string)
| Lambda_invoke (FunctionName InvocationType : string)
| Ec2_stop_instances (InstanceIds : list string)
| Ec2_start_instances (InstanceIds : list string)
| Ec2_describe_instances (InstanceIds : list string)
| Time_sleep (seconds : Z)
| Requests_post (url : string) (json_ : json)
| Print (text : string).

(** What the environment answers.  [kms_decrypt] stands for
    [decrypt(...)["Plaintext"].decode("utf-8")]; [ec2_describe_instances n]
    is the answer to the read made after [n] earlier reads, so the instance
    may change state between polls; an [option exn] is [None] when the call
    returns normally. *)
Record World := {
  os_environ : gmap string string;
  json_loads : string -> outcome json;
  b64decode : string -> outcome (list byte);
  boto3_client : string -> option exn;
  kms_decrypt : list byte -> string -> outcome string;
  lambda_invoke : string -> string -> option exn;
  nacl_VerifyKey : list byte -> option exn;
  nacl_verify : list byte -> string -> list byte -> option exn;
  ec2_stop_instances : list string -> option exn;
  ec2_start_instances : list string -> option exn;
  ec2_describe_instances : nat -> list string -> outcome describe_response;
  requests_post : string -> json -> option exn;
}.

Definition trace := list call.

Definition is_describe (c : call) : bool :=
  match c with Ec2_describe_instances _ => true | _ => false end.
Definition is_post (c : call) : bool :=
  match c with Requests_post _ _ => true | _ => false end.
Definition is_invoke (c : call) : bool :=
  match c with Lambda_invoke _ _ => true | _ => false end.
Definition is_sleep (c : call) : bool :=
  match c with Time_sleep _ => true | _ => false end.
Definition is_ec2 (c : call) : bool :=
  match c with
  | Ec2_stop_instances _ | Ec2_start_instances _ | Ec2_describe_instances _ => true
  | _ => false
  end.

(** Appending a call to a trace. *)
Definition log (tr : trace) (c : call) : trace := (tr ++ [c])%list.

(** How many calls of a trace satisfy [p]. *)
Fixpoint count (p : call -> bool) (tr : trace) : nat :=
  match tr with
  | [] => 0
  | c :: rest => (if p c then 1 else 0) + count p rest
  end%nat.

(** The webhook POSTs of a trace, in order: destination and payload. *)
Fixpoint posts (tr : trace) : list (string * json) :=
  match tr with
  | [] => []
  | Requests_post url data :: rest => (url, data) :: posts rest
  | _ :: rest => posts rest
  end.

(** ** The monad of a handler run *)

(** A run ends by returning, by raising, or (only for a loop cut off by its
    fuel) undecided. *)
Inductive result (A : Type) :=
| Return (a : A)
| Raise (e : exn)
| OutOfFuel.
Arguments Return {A} a.
Arguments Raise {A} e.
Arguments OutOfFuel {A}.

Definition M (A : Type) : Type := World -> trace -> result A * trace.

Definition ret {A} (a : A) : M A := fun _ tr => (Return a, tr).

Definition bind {A B} (m : M A) (k : A -> M B) : M B :=
  fun w tr =>
    match m w tr with
    | (Return a, tr') => k a w tr'
    | (Raise e, tr') => (Raise e, tr')
    | (OutOfFuel, tr') => (OutOfFuel, tr')
    end.

Definition raise {A} (e : exn) : M A := fun _ tr => (Raise e, tr).

Definition out_of_fuel {A} : M A := fun _ tr => (OutOfFuel, tr).

(** The handlers are written with stdpp's [x ← m; k] and [m;; k]. *)
#[global] Instance M_ret : MRet M := @ret.
#[global] Instance M_bind : MBind M := fun A B k m => bind m k.

(** [raise C(msg) from e]. *)
Definition raise_from {A} (c : exn_class) (msg : string) (e : exn) : M A :=
  raise (Exn c msg (Some e)).

(** [try: body  except (C1, ..., Cn) as e: handler e]. *)
Definition try_except {A} (body : M A) (classes : list exn_class)
    (handler : exn -> M A) : M A :=
  fun w tr =>
    match body w tr with
    | (Raise e, tr') =>
        if isinstance e classes then handler e w tr' else (Raise e, tr')
    | r => r
    end.

(** A pure library call (no trace entry). *)
Definition lib {A} (f : World -> outcome A) : M A :=
  fun w tr =>
    match f w with
    | Ok a => (Return a, tr)
    | Err e => (Raise e, tr)
    end.

Definition lib_ (f : World -> option exn) : M unit :=
  fun w tr =>
    match f w with
    | None => (Return tt, tr)
    | Some e => (Raise e, tr)
    end.

(** A call that leaves the process: logged, then answered by the world. *)
Definition service {A} (c : call) (f : World -> outcome A) : M A :=
  fun w tr =>
    match f w with
    | Ok a => (Return a, log tr c)
    | Err e => (Raise e, log tr c)
    end.

Definition service_ (c : call) (f : World -> option exn) : M unit :=
  fun w tr =>
    match f w with
    | None => (Return tt, log tr c)
    | Some e => (Raise e, log tr c)
    end.

(** [os.environ[name]]. *)
Definition environ (name : string) : M string :=
  lib (fun w => match os_environ w !! name with
                | Some v => Ok v
                | None => Err (key_error name)
                end).

Definition print (text : string) : M unit :=
  fun _ tr => (Return tt, log tr (Print text)).

Definition time_sleep (seconds : Z) : M unit :=
  fun _ tr => (Return tt, log tr (Time_sleep seconds)).

(** [ec2.describe_instances(InstanceIds=ids)]: the answer depends on how
    many reads were made before this one. *)
Definition describe_instances (ids : list string) : M describe_response :=
  fun w tr =>
    match ec2_describe_instances w (count is_describe tr) ids with
    | Ok r => (Return r, log tr (Ec2_describe_instances ids))
    | Err e => (Raise e, log tr (Ec2_describe_instances ids))
    end.

(** [kms_client.decrypt(CiphertextBlob=b64decode(encrypted),
      EncryptionContext={"LambdaFunctionName":
        os.environ["AWS_LAMBDA_FUNCTION_NAME"]})["Plaintext"].decode("utf-8")],
    the expression all three files use, its arguments evaluated left to
    right before the call. *)
Definition kms_client_decrypt (encrypted : string) : M string :=
  blob ← lib (fun w => b64decode w encrypted);
  name ← environ "AWS_LAMBDA_FUNCTION_NAME";
  service (Kms_decrypt blob name) (fun w => kms_decrypt w blob name).

(** Running a handler from an empty trace. *)
Definition run {A} (m : M A) (w : World) : result A * trace := m w [].

(** Lifting a pure Python operation that may raise. *)
Definition pure {A} (o : outcome A) : M A := lib (fun _ => o).

(** ** [src/discord_webhook_app.py] *)

Module discord_webhook_app.

(** The API-Gateway event, as far as the handler reads it: the raw body
    text and the header map. *)
Record event := {
  event_body : string;
  event_headers : gmap string string;
}.

(** The [dict] a handler returns; [headers] is [None] when the key is not
    set. *)
Record response := {
  statusCode : Z;
  headers : option (list (string * string));
  body : json_text;
}.

(** [event['headers'][name]]. *)
Definition header (ev : event) (name : string) : M string :=
  pure (match event_headers ev !! name with
        | Some v => Ok v
        | None => Err (key_error name)
        end).

Definition invalid_request_signature : response :=
  {| statusCode := 401; headers := None;
     body := json_dumps (JStr "invalid request signature") |}.

Definition pong : response :=
  {| statusCode := 200; headers := None;
     body := json_dumps (JDict [("type", JInt 1)]) |}.

Definition unhandled_request_type : response :=
  {| statusCode := 400; headers := None;
     body := json_dumps (JStr "unhandled request type") |}.

Definition unhandled_command : response :=
  {| statusCode := 400; headers := None;
     body := json_dumps (JStr "Unhandled command") |}.

Definition decrypt_env_varibles : M string :=
  try_except
    (lib_ (fun w => boto3_client w "kms");;
     public_key_encrypted ← environ "DISCORD_PUBLIC_KEY";
     kms_client_decrypt public_key_encrypted)
    [BotoCoreError; ClientError]
    (fun e => raise_from RuntimeError ("KMS復号エラー: " +:+ str e) e).

Definition invoke_lambda_function (function_name success_message : string)
    : M response :=
  lib_ (fun w => boto3_client w "lambda");;
  service_ (Lambda_invoke function_name "Event")
           (fun w => lambda_invoke w function_name "Event");;
  mret {| statusCode := 200;
          headers := Some [("Content-Type", "application/json")];
          body := json_dumps
            (JDict [("type", JInt 4);
                    ("data", JDict [("content", JStr success_message);
                                    ("flags", JInt 4096)])]) |}.

Definition command_handler (body : json) : M response :=
  data ← pure (getitem body "data");
  command ← pure (getitem data "name");
  data ← pure (getitem body "data");
  options ← pure (getitem data "options");
  option0 ← pure (getitem0 options);
  action ← pure (getitem option0 "value");
  if eq_str command "server" then
    if eq_str action "start" then
      invoke_lambda_function "discord-start-instance"
                             "サーバーを起動しています・・・"
    else if eq_str action "stop" then
      invoke_lambda_function "discord-stop-instance"
                             "サーバーを停止しています・・・"
    else if eq_str action "status" then
      invoke_lambda_function "discord-check-instance"
                             "サーバーステータスを取得しています・・・"
    else mret unhandled_command
  else mret unhandled_command.

Definition lambda_handler (ev : event) (context : json) : M response :=
  public_key ← decrypt_env_varibles;
  try_except
    (body ← lib (fun w => json_loads w (event_body ev));
     signature ← header ev "x-signature-ed25519";
     timestamp ← header ev "x-signature-timestamp";
     key ← pure (fromhex public_key);
     lib_ (fun w => nacl_VerifyKey w key);;
     let message := timestamp +:+ event_body ev in
     rejected ← try_except
       (sig ← pure (fromhex signature);
        lib_ (fun w => nacl_verify w key message sig);;
        mret None)
       [BadSignatureError]
       (fun _ => mret (Some invalid_request_signature));
     match rejected with
     | Some r => mret r
     | None =>
         ty ← pure (getitem body "type");
         if eq_int ty 1 then mret pong
         else
           ty ← pure (getitem body "type");
           if eq_int ty 2 then command_handler body
           else mret unhandled_request_type
     end)
    [Exception]
    (fun e => print ("[ERROR] " +:+ str e);; raise e).

End discord_webhook_app.

(** ** What the two workers share *)

(** Lines 39-62 of [discord_stop_instance.py] and [discord_check_instance.py]
    are the same text: read the two encrypted settings, then decrypt them.
    The result is [(instance_id, discord_webhook_url)]. *)
Definition read_settings : M (string * string) :=
  try_except
    (instance_id_encrypted ← environ "INSTANCE_ID";
     discord_webhook_url_encrypted ← environ "DISCORD_WEBHOOK_URL";
     mret (instance_id_encrypted, discord_webhook_url_encrypted))
    [KeyError]
    (fun e => raise_from ValueError
                ("環境変数 " +:+ str e +:+ " が見つかりません") e).

Definition decrypt_settings (encrypted : string * string) : M (string * string) :=
  try_except
    (lib_ (fun w => boto3_client w "kms");;
     instance_id ← kms_client_decrypt encrypted.1;
     discord_webhook_url ← kms_client_decrypt encrypted.2;
     mret (instance_id, discord_webhook_url))
    [BotoCoreError; ClientError]
    (fun e => raise_from RuntimeError ("KMS復号エラー: " +:+ str e) e).

(** The class list of the workers' EC2 [except] clause. *)
Definition ec2_errors : list exn_class :=
  [BotoCoreError; ClientError; NoCredentialsError; PartialCredentialsError;
   ParamValidationError; EndpointConnectionError].

(** [r["Reservations"][0]["Instances"][0]]. *)
Definition first_instance (r : describe_response) : outcome instance :=
  match Reservations r with
  | [] => Err (Exn IndexError "list index out of range" None)
  | rv :: _ =>
      match Instances rv with
      | [] => Err (Exn IndexError "list index out of range" None)
      | i :: _ => Ok i
      end
  end.

(** [requests.post(url, json=data)] under the workers' [except] clause. *)
Definition post_webhook (url : string) (data : json) : M unit :=
  try_except
    (service_ (Requests_post url data) (fun w => requests_post w url data))
    [RequestException]
    (fun e => raise_from RuntimeError
                ("Discord Webhook送信エラー: " +:+ str e) e).

(** ** [src/lambda_func/discord_stop_instance.py] *)

Module discord_stop_instance.

(** The [while instance_running:] loop of lines 72-78; [fuel] bounds the
    number of times its body may run. *)
Fixpoint while_instance_running (fuel : nat) (instance_id : string)
    (instance_running : bool) : M unit :=
  if instance_running then
    match fuel with
    | O => out_of_fuel
    | S fuel' =>
        instance ← describe_instances [instance_id];
        i ← pure (first_instance instance);
        if String.eqb (State_Name i) "stopped"
        then while_instance_running fuel' instance_id false
        else time_sleep 5;;
             while_instance_running fuel' instance_id instance_running
    end
  else mret tt.

Definition stopped_message (instance_id : string) : json :=
  JDict [("content", JStr ("インスタンス【" +:+ instance_id +:+ "】が停止しました"));
         ("flags", JInt 4096)].

Definition lambda_handler (fuel : nat) (event context : json) : M string :=
  encrypted ← read_settings;
  '(instance_id, discord_webhook_url) ← decrypt_settings encrypted;
  try_except
    (lib_ (fun w => boto3_client w "ec2");;
     service_ (Ec2_stop_instances [instance_id])
              (fun w => ec2_stop_instances w [instance_id]);;
     let instance_running := false in
     while_instance_running fuel instance_id instance_running)
    ec2_errors
    (fun e => raise_from RuntimeError ("EC2操作エラー: " +:+ str e) e);;
  post_webhook discord_webhook_url (stopped_message instance_id);;
  mret "-".

End discord_stop_instance.

(** ** [src/lambda_func/discord_check_instance.py] *)

Module discord_check_instance.

(** The carriage return the running message is written with. *)
Definition CR : string := String "013"%char "".

Definition running_content (instance_id : string) (public_ip : option string)
    : string :=
  "インスタンス【" +:+ instance_id +:+ "】は起動済みです" +:+ CR
    +:+ format_opt public_ip.

Definition stopped_content (instance_id : string) : string :=
  "インスタンス【" +:+ instance_id +:+ "】は停止しています".

Definition other_content (instance_id state : string) : string :=
  "インスタンス【" +:+ instance_id +:+ "】のステータスは" +:+ state +:+ "です".

Definition message (content : string) : json :=
  JDict [("content", JStr content); ("flags", JInt 4096)].

Definition lambda_handler (event context : json) : M string :=
  encrypted ← read_settings;
  '(instance_id, discord_webhook_url) ← decrypt_settings encrypted;
  '(data, res) ← try_except
    (lib_ (fun w => boto3_client w "ec2");;
     instance ← describe_instances [instance_id];
     i ← pure (first_instance instance);
     let state := State_Name i in
     if String.eqb state "running" then
       let public_ip := PublicIpAddress i in
       mret (message (running_content instance_id public_ip),
             state +:+ " " +:+ format_opt public_ip)
     else if String.eqb state "stopped" then
       mret (message (stopped_content instance_id), state)
     else
       mret (message (other_content instance_id state), state))
    ec2_errors
    (fun e => raise_from RuntimeError ("EC2操作エラー: " +:+ str e) e);
  post_webhook discord_webhook_url data;;
  mret res.

End discord_check_instance.

(** ** Start worker *)

Module discord_start_instance.

(** Modelled from the spec: the Start worker's source file is not among
    the sources (only its Lambda name, ["discord-start-instance"], is, in
    [command_handler]).  Section 4.5: the three workers share the preamble;
    Start has "the same shape as Stop, mirrored: trigger the start
    operation once, then notify that start was initiated", with no wait for
    "running"; section 4.6: the notification is one POST of
    [{content, flags}], the flags being the notification-suppression bit
    of section 4.4.  The wording of the message is not given, so it is a
    parameter. *)
Definition started_message (content : string -> string) (instance_id : string)
    : json :=
  JDict [("content", JStr (content instance_id)); ("flags", JInt 4096)].

Definition lambda_handler (content : string -> string) (event context : json)
    : M string :=
  encrypted ← read_settings;
  '(instance_id, discord_webhook_url) ← decrypt_settings encrypted;
  try_except
    (lib_ (fun w => boto3_client w "ec2");;
     service_ (Ec2_start_instances [instance_id])
              (fun w => ec2_start_instances w [instance_id]))
    ec2_errors
    (fun e => raise_from RuntimeError ("EC2操作エラー: " +:+ str e) e);;
  post_webhook discord_webhook_url (started_message content instance_id);;
  mret "-".

End discord_start_instance.

(** ** [src/register_slash_command.py] *)

Module register_slash_command.

(** The command description the script registers (lines 9-25). *)
Definition commands : json :=
  JDict [("name", JStr "server");
         ("description", JStr "サーバーのコントロール");
         ("options",
          JList [JDict [("name", JStr "action");
                        ("description", JStr "start/stop/status");
                        ("type", JInt 3);
                        ("required", JBool true);
                        ("choices",
                         JList [JDict [("name", JStr "start"); ("value", JStr "start")];
                                JDict [("name", JStr "stop"); ("value", JStr "stop")];
                                JDict [("name", JStr "status"); ("value", JStr "status")]])]])].

(** The request [requests.post(url, headers=headers, data=...)] sends. *)
Record http_request := {
  url : string;
  headers : list (string * string);
  data : json_text;
}.

(** What the script does to the outside: the POST, then the [print] of the
    answer's content. *)
Inductive io :=
| Post (request : http_request)
| Print_content (content : string).

(** [main()], run in the environment [environ] (after [load_dotenv()]),
    against an API that answers the POST with [post]. *)
Definition main (environ : gmap string string)
    (post : http_request -> outcome string) : result unit * list io :=
  match environ !! "DISCORD_APP_ID" with
  | None => (Raise (key_error "DISCORD_APP_ID"), [])
  | Some app_id =>
      let url := "https://discord.com/api/v10/applications/" +:+ app_id
                   +:+ "/commands" in
      match environ !! "DISCORD_TOKEN" with
      | None => (Raise (key_error "DISCORD_TOKEN"), [])
      | Some token =>
          let headers := [("Authorization", "Bot " +:+ token);
                          ("Content-Type", "application/json")] in
          let request := {| url := url; headers := headers;
                            data := json_dumps commands |} in
          match post request with
          | Err e => (Raise e, [Post request])
          | Ok content => (Return tt, [Post request; Print_content content])
          end
      end
  end.

End register_slash_command.

(** ** Test doubles *)

Module Double.

Definition dq : string := String "034"%char "".
Definition quoted (s : string) : string := dq +:+ s +:+ dq.

(** Bytes of an ASCII text. *)
Definition bytes (s : string) : list byte := String.list_byte_of_string s.

(** The settings of a deployment: base64 of ["i-123"], of
    ["https://hook"] and of ["key"]. *)
Definition env : gmap string string :=
  {[ "INSTANCE_ID" := "aS0xMjM=";
     "DISCORD_WEBHOOK_URL" := "aHR0cHM6Ly9ob29r";
     "DISCORD_PUBLIC_KEY" := "a2V5";
     "AWS_LAMBDA_FUNCTION_NAME" := "fn" ]}.

Definition public_key_hex : string :=
  "0000000000000000000000000000000000000000000000000000000000000000".

(** Two request bodies and the documents they parse to. *)
Definition ping_body : string := "{" +:+ quoted "type" +:+ ": 1}".
Definition ping_payload : json := JDict [("type", JInt 1)].

Definition start_body : string :=
  "{" +:+ quoted "type" +:+ ": 2, " +:+ quoted "data" +:+ ": {"
    +:+ quoted "name" +:+ ": " +:+ quoted "server" +:+ ", "
    +:+ quoted "options" +:+ ": [{" +:+ quoted "name" +:+ ": "
    +:+ quoted "action" +:+ ", " +:+ quoted "value" +:+ ": "
    +:+ quoted "start" +:+ "}]}}".
Definition command_payload (name action : string) : json :=
  JDict [("type", JInt 2);
         ("data", JDict [("name", JStr name);
                         ("options", JList [JDict [("name", JStr "action");
                                                   ("value", JStr action)]])])].

Definition modal_body : string := "{" +:+ quoted "type" +:+ ": 5}".
Definition modal_payload : json := JDict [("type", JInt 5)].

Definition request (body_ : string) (hdrs : gmap string string)
    : discord_webhook_app.event :=
  {| discord_webhook_app.event_body := body_;
     discord_webhook_app.event_headers := hdrs |}.

Definition signed_headers : gmap string string :=
  {[ "x-signature-ed25519" := "00ff";
     "x-signature-timestamp" := "1700000000" ]}.

Definition answer (state : string) (ip : option string) : describe_response :=
  {| Reservations :=
       [ {| Instances := [ {| State_Name := state; PublicIpAddress := ip |} ] |} ] |}.

Definition forged : exn :=
  Exn BadSignatureError "Signature was forged or corrupt" None.
Definition timed_out : exn := Exn RequestException "timed out" None.

(** A world over the environment [environment], whose settings decrypt to
    the instance ["i-123"], the hook ["https://hook"] and the key
    [public_key_hex]; the instance answers the reads in [states], one per
    read, then ["stopped"] for ever; signature verification ends as
    [verify] says and the webhook POST as [post] says. *)
Definition world (environment : gmap string string)
    (states : list (string * option string))
    (verify post : option exn) : World :=
  {| os_environ := environment;
     json_loads := fun s =>
       if String.eqb s ping_body then Ok ping_payload
       else if String.eqb s start_body then Ok (command_payload "server" "start")
       else if String.eqb s modal_body then Ok modal_payload
       else Err (Exn JSONDecodeError "Expecting value" None);
     b64decode := fun s =>
       if String.eqb s "aS0xMjM=" then Ok (bytes "i-123")
       else if String.eqb s "aHR0cHM6Ly9ob29r" then Ok (bytes "https://hook")
       else if String.eqb s "a2V5" then Ok (bytes "key")
       else Err (Exn BinasciiError "Incorrect padding" None);
     boto3_client := fun _ => None;
     kms_decrypt := fun blob _ =>
       let text := String.string_of_list_byte blob in
       if String.eqb text "i-123" then Ok "i-123"
       else if String.eqb text "https://hook" then Ok "https://hook"
       else if String.eqb text "key" then Ok public_key_hex
       else Err (Exn ClientError "InvalidCiphertextException" None);
     lambda_invoke := fun _ _ => None;
     nacl_VerifyKey := fun key =>
       if bool_decide (length key = 32%nat) then None
       else Some (Exn ValueError "The key must be exactly 32 bytes long" None);
     nacl_verify := fun _ _ _ => verify;
     ec2_stop_instances := fun _ => None;
     ec2_start_instances := fun _ => None;
     ec2_describe_instances := fun n _ =>
       match states !! n with
       | Some (state, ip) => Ok (answer state ip)
       | None => Ok (answer "stopped" None)
       end;
     requests_post := fun _ _ => post |}.

End Double.

(** ** Worlds with one service changed *)

Module Fault.

(** [w] without the environment variable [name]. *)
Definition unset (name : string) (w : World) : World :=
  {| os_environ := delete name (os_environ w);
     json_loads := json_loads w; b64decode := b64decode w;
     boto3_client := boto3_client w; kms_decrypt := kms_decrypt w;
     lambda_invoke := lambda_invoke w; nacl_VerifyKey := nacl_VerifyKey w;
     nacl_verify := nacl_verify w; ec2_stop_instances := ec2_stop_instances w;
     ec2_start_instances := ec2_start_instances w;
     ec2_describe_instances := ec2_describe_instances w;
     requests_post := requests_post w |}.

(** [w] with KMS refusing every decryption with [e]. *)
Definition kms_down (e : exn) (w : World) : World :=
  {| os_environ := os_environ w;
     json_loads := json_loads w; b64decode := b64decode w;
     boto3_client := boto3_client w; kms_decrypt := fun _ _ => Err e;
     lambda_invoke := lambda_invoke w; nacl_VerifyKey := nacl_VerifyKey w;
     nacl_verify := nacl_verify w; ec2_stop_instances := ec2_stop_instances w;
     ec2_start_instances := ec2_start_instances w;
     ec2_describe_instances := ec2_describe_instances w;
     requests_post := requests_post w |}.

(** [w] with EC2 refusing every stop and every describe with [e]. *)
Definition ec2_down (e : exn) (w : World) : World :=
  {| os_environ := os_environ w;
     json_loads := json_loads w; b64decode := b64decode w;
     boto3_client := boto3_client w; kms_decrypt := kms_decrypt w;
     lambda_invoke := lambda_invoke w; nacl_VerifyKey := nacl_VerifyKey w;
     nacl_verify := nacl_verify w; ec2_stop_instances := fun _ => Some e;
     ec2_start_instances := ec2_start_instances w;
     ec2_describe_instances := fun _ _ => Err e;
     requests_post := requests_post w |}.

(** [w] with EC2 answering every describe with [r]. *)
Definition describing (r : describe_response) (w : World) : World :=
  {| os_environ := os_environ w;
     json_loads := json_loads w; b64decode := b64decode w;
     boto3_client := boto3_client w; kms_decrypt := kms_decrypt w;
     lambda_invoke := lambda_invoke w; nacl_VerifyKey := nacl_VerifyKey w;
     nacl_verify := nacl_verify w; ec2_stop_instances := ec2_stop_instances w;
     ec2_start_instances := ec2_start_instances w;
     ec2_describe_instances := fun _ _ => Ok r;
     requests_post := requests_post w |}.

(** [w] with Lambda refusing every trigger with [e]. *)
Definition lambda_down (e : exn) (w : World) : World :=
  {| os_environ := os_environ w;
     json_loads := json_loads w; b64decode := b64decode w;
     boto3_client := boto3_client w; kms_decrypt := kms_decrypt w;
     lambda_invoke := fun _ _ => Some e; nacl_VerifyKey := nacl_VerifyKey w;
     nacl_verify := nacl_verify w; ec2_stop_instances := ec2_stop_instances w;
     ec2_start_instances := ec2_start_instances w;
     ec2_describe_instances := ec2_describe_instances w;
     requests_post := requests_post w |}.

Definition access_denied : exn := Exn ClientError "AccessDeniedException" None.

(** A deployment in good order, on an instance that is stopping. *)
Definition healthy : World :=
  Double.world Double.env [("stopping", None); ("stopping", None)] None None.

(** Headers with a signature of the length Ed25519 signatures have, 64
    bytes in hexadecimal. *)
Definition signature_hex : string :=
  "00000000000000000000000000000000" +:+ "00000000000000000000000000000000"
    +:+ "00000000000000000000000000000000" +:+ "00000000000000000000000000000000".

Definition headers64 : gmap string string :=
  {[ "x-signature-ed25519" := signature_hex;
     "x-signature-timestamp" := "1700000000" ]}.

(** The same deployment, with a verifier that finds every signature forged. *)
Definition forging : World :=
  Double.world Double.env [] (Some Double.forged) None.

End Fault.

(** ** Vocabulary of the properties *)

(** The exception a worker raises for a setting that is not in the
    environment. *)
Definition missing_setting (name : string) : exn :=
  Exn ValueError ("環境変数 '" +:+ name +:+ "' が見つかりません") (Some (key_error name)).

(** The preamble of a worker goes through: both settings are present and
    decrypt to [instance_id] and [url]; [pre] is the trace it leaves. *)
Definition settings_resolve (w : World) (instance_id url : string) (pre : trace)
    : Prop :=
  exists id_encrypted url_encrypted id_blob url_blob name,
    os_environ w !! "INSTANCE_ID" = Some id_encrypted /\
    os_environ w !! "DISCORD_WEBHOOK_URL" = Some url_encrypted /\
    boto3_client w "kms" = None /\
    os_environ w !! "AWS_LAMBDA_FUNCTION_NAME" = Some name /\
    b64decode w id_encrypted = Ok id_blob /\
    kms_decrypt w id_blob name = Ok instance_id /\
    b64decode w url_encrypted = Ok url_blob /\
    kms_decrypt w url_blob name = Ok url /\
    pre = [Kms_decrypt id_blob name; Kms_decrypt url_blob name].


(** The reply [{type: 4, data: {content, flags}}] with status 200; the flags
    are the single bit 12. *)
Definition acknowledgment (content : string) : discord_webhook_app.response :=
  {| discord_webhook_app.statusCode := 200;
     discord_webhook_app.headers := Some [("Content-Type", "application/json")];
     discord_webhook_app.body :=
       json_dumps (JDict [("type", JInt 4);
                          ("data", JDict [("content", JStr content);
                                          ("flags", JInt (Z.shiftl 1 12))])]) |}.

(** The payload [body] names the command [command] ([data.name]) and the
    action [action] ([data.options[0].value]). *)
Definition command_of (body command action : json) : Prop :=
  exists data options option0,
    getitem body "data" = Ok data /\
    getitem data "name" = Ok command /\
    getitem data "options" = Ok options /\
    getitem0 options = Ok option0 /\
    getitem option0 "value" = Ok action.

(** The request gets as far as the Ed25519 check: the public key decrypts
    and hex-decodes to [key], the body parses to [payload], both headers are
    there, the signature hex-decodes to [sig], and [message] is the
    timestamp followed by the raw body.  [pre] is the trace up to there. *)
Definition reaches_verification (w : World) (ev : discord_webhook_app.event)
    (payload : json) (pre : trace) (key : list byte) (message : string)
    (sig : list byte) : Prop :=
  exists key_encrypted blob name public_key signature timestamp,
    boto3_client w "kms" = None /\
    os_environ w !! "DISCORD_PUBLIC_KEY" = Some key_encrypted /\
    b64decode w key_encrypted = Ok blob /\
    os_environ w !! "AWS_LAMBDA_FUNCTION_NAME" = Some name /\
    kms_decrypt w blob name = Ok public_key /\
    json_loads w (discord_webhook_app.event_body ev) = Ok payload /\
    discord_webhook_app.event_headers ev !! "x-signature-ed25519" = Some signature /\
    discord_webhook_app.event_headers ev !! "x-signature-timestamp" = Some timestamp /\
    fromhex public_key = Ok key /\
    nacl_VerifyKey w key = None /\
    fromhex signature = Ok sig /\
    message = timestamp +:+ discord_webhook_app.event_body ev /\
    pre = [Kms_decrypt blob name].

(** A JSON value that is neither an [int] nor a [bool]. *)
Definition not_a_number (v : json) : Prop :=
  match v with
  | JInt _ | JBool _ => False
  | _ => True
  end.

(** [needle] occurs in [text]. *)
Definition contains (needle text : string) : Prop :=
  exists before after, text = before +:+ needle +:+ after.

(** The ["flags"] entry of a payload, and of the ["data"] of a response
    body. *)
Definition flags (payload : json) : option json :=
  match payload with
  | JDict kv => assoc "flags" kv
  | _ => None
  end.

Definition response_flags (r : discord_webhook_app.response) : option json :=
  match discord_webhook_app.body r with
  | json_dumps v =>
      match getitem v "data" with
      | Ok data => flags data
      | Err _ => None
      end
  end.

Definition is_4096 (v : option json) : bool :=
  match v with
  | Some (JInt n) => n =? 4096
  | _ => false
  end.

Definition posts_carry_4096 (tr : trace) : bool :=
  forallb (fun p => is_4096 (flags p.2)) (posts tr).

(** Every webhook POST of a trace comes after a stop call. *)
Definition stop_precedes_posts (tr : trace) : Prop :=
  forall i url data,
    tr !! i = Some (Requests_post url data) ->
    exists j ids, (j < i)%nat /\ tr !! j = Some (Ec2_stop_instances ids).

(** No EC2 call of a trace comes after a webhook POST. *)
Definition no_ec2_after_post (tr : trace) : Prop :=
  forall i j url data c,
    tr !! i = Some (Requests_post url data) -> (i < j)%nat ->
    tr !! j = Some c -> is_ec2 c = false.

(** The two as scans of the trace. *)
Fixpoint guarded (seen_stop : bool) (tr : trace) : bool :=
  match tr with
  | [] => true
  | Ec2_stop_instances _ :: rest => guarded true rest
  | Requests_post _ _ :: rest => seen_stop && guarded seen_stop rest
  | _ :: rest => guarded seen_stop rest
  end.

Fixpoint quiet_after_post (tr : trace) : bool :=
  match tr with
  | [] => true
  | Requests_post _ _ :: rest =>
      forallb (fun c => negb (is_ec2 c)) rest && quiet_after_post rest
  | _ :: rest => quiet_after_post rest
  end.

(** ** Vocabulary of the further properties *)

Definition is_kms (c : call) : bool :=
  match c with Kms_decrypt _ _ => true | _ => false end.
Definition is_print (c : call) : bool :=
  match c with Print _ => true | _ => false end.
Definition is_stop (c : call) : bool :=
  match c with Ec2_stop_instances _ => true | _ => false end.
Definition is_start (c : call) : bool :=
  match c with Ec2_start_instances _ => true | _ => false end.

(** The gateway's public key decrypts to the text [public_key]; [pre] is
    the trace that leaves. *)
Definition key_decrypts (w : World) (public_key : string) (pre : trace) : Prop :=
  exists key_encrypted blob name,
    boto3_client w "kms" = None /\
    os_environ w !! "DISCORD_PUBLIC_KEY" = Some key_encrypted /\
    b64decode w key_encrypted = Ok blob /\
    os_environ w !! "AWS_LAMBDA_FUNCTION_NAME" = Some name /\
    kms_decrypt w blob name = Ok public_key /\
    pre = [Kms_decrypt blob name].

(** How a gateway run that got as far as [pre] ends when the error [e] is
    caught by the handler's [except Exception]: [e] is printed, then raised
    again. *)
Definition logged (pre : trace) (e : exn)
    : result discord_webhook_app.response * trace :=
  (Raise e, pre ++ [Print ("[ERROR] " +:+ str e)]).

(** The phase a worker's call belongs to: decrypting the settings, working
    on the instance, notifying. *)
Definition phase (c : call) : nat :=
  match c with
  | Kms_decrypt _ _ => 0
  | Ec2_stop_instances _ | Ec2_start_instances _ | Ec2_describe_instances _
  | Time_sleep _ => 1
  | Requests_post _ _ => 2
  | Lambda_invoke _ _ | Print _ => 3
  end.

(** The phases of a trace never go back, and none is beyond notifying. *)
Fixpoint in_phase_order (from : nat) (tr : trace) : bool :=
  match tr with
  | [] => true
  | c :: rest =>
      (from <=? phase c)%nat && (phase c <=? 2)%nat && in_phase_order (phase c) rest
  end.

(** Every KMS call of a trace passes [name] as its encryption context. *)
Definition kms_context_is (name : option string) (tr : trace) : bool :=
  forallb (fun c => match c, name with
                    | Kms_decrypt _ given, Some expected => String.eqb given expected
                    | Kms_decrypt _ _, None => false
                    | _, _ => true
                    end) tr.

(** The read made after [n] earlier reads finds the instance in [state]. *)
Definition reads_state (w : World) (n : nat) (instance_id state : string) : Prop :=
  exists r i,
    ec2_describe_instances w n [instance_id] = Ok r /\
    first_instance r = Ok i /\
    State_Name i = state.

(** [k] rounds of read-and-sleep, then one last read. *)
Fixpoint polls (k : nat) (instance_id : string) : trace :=
  match k with
  | O => [Ec2_describe_instances [instance_id]]
  | S k' =>
      Ec2_describe_instances [instance_id] :: Time_sleep 5 :: polls k' instance_id
  end.

(** The values of the choices the registered command offers for its first
    option, and the name it is registered under. *)
Definition choice_values (commands : json) : list json :=
  match getitem commands "options" with
  | Ok (JList (option0 :: _)) =>
      match getitem option0 "choices" with
      | Ok (JList choices) =>
          omap (fun choice => match getitem choice "value" with
                              | Ok v => Some v
                              | Err _ => None
                              end) choices
      | _ => []
      end
  | _ => []
  end.

Definition registered_name (commands : json) : json :=
  match getitem commands "name" with
  | Ok v => v
  | Err _ => JNull
  end.

(** * Properties *)

(** ** Stepping through a run *)

Lemma bind_run {A B} (m : M A) (k : A -> M B) w tr :
  (m ≫= k) w tr =
  match m w tr with
  | (Return a, tr') => k a w tr'
  | (Raise e, tr') => (Raise e, tr')
  | (OutOfFuel, tr') => (OutOfFuel, tr')
  end.
Proof. reflexivity. Qed.

Lemma environ_run name w tr :
  environ name w tr =
  match os_environ w !! name with
  | Some v => (Return v, tr)
  | None => (Raise (key_error name), tr)
  end.
Proof. unfold environ, lib. by destruct (os_environ w !! name). Qed.

Lemma read_settings_missing w tr :
  os_environ w !! "INSTANCE_ID" = None \/
  os_environ w !! "DISCORD_WEBHOOK_URL" = None ->
  exists name,
    (name = "INSTANCE_ID" \/ name = "DISCORD_WEBHOOK_URL") /\
    os_environ w !! name = None /\
    read_settings w tr = (Raise (missing_setting name), tr).
Proof.
  intros H. unfold read_settings, try_except.
  rewrite bind_run, environ_run.
  destruct (os_environ w !! "INSTANCE_ID") as [a|] eqn:Ha.
  - destruct H as [H|H]; [discriminate|].
    exists "DISCORD_WEBHOOK_URL". split; [by right|]. split; [done|].
    rewrite bind_run, environ_run, H. reflexivity.
  - exists "INSTANCE_ID". split; [by left|]. split; [done|]. reflexivity.
Qed.

Lemma while_false fuel instance_id :
  discord_stop_instance.while_instance_running fuel instance_id false = mret tt.
Proof. by destruct fuel. Qed.

(** Unfolding a handler down to the answers of the world, and splitting on
    each answer, innermost first. *)
Ltac unfold_run :=
  unfold run, discord_stop_instance.lambda_handler,
    discord_check_instance.lambda_handler,
    discord_start_instance.lambda_handler,
    discord_webhook_app.lambda_handler, discord_webhook_app.command_handler,
    discord_webhook_app.invoke_lambda_function,
    discord_webhook_app.decrypt_env_varibles, discord_webhook_app.header,
    read_settings, decrypt_settings, post_webhook, kms_client_decrypt,
    describe_instances, environ, pure, try_except, service, service_, lib,
    lib_, raise_from, raise, print, time_sleep,
    mbind, M_bind, bind, mret, M_ret, ret in *.

Ltac step := cbn -[isinstance String.append].

Ltac destruct_inner x :=
  lazymatch x with
  | context [match ?y with _ => _ end] => destruct_inner y
  | _ => destruct x eqn:?
  end.

Ltac split_answers :=
  repeat (cbn [fst snd];
          first
            [ rewrite while_false; unfold_run
            | match goal with
              | |- context [match ?x with _ => _ end] => destruct_inner x
              end ]).

(** ** Missing settings *)

(** C7. A worker (Stop or Status) started in an environment that lacks
    INSTANCE_ID or DISCORD_WEBHOOK_URL raises the ValueError that names the
    missing variable, and its trace is empty: it has made no decryption
    call, no EC2 call and no webhook POST. *)
Theorem missing_setting_is_fatal (w : World) (fuel : nat) (event context : json) :
  os_environ w !! "INSTANCE_ID" = None \/
  os_environ w !! "DISCORD_WEBHOOK_URL" = None ->
  exists name,
    (name = "INSTANCE_ID" \/ name = "DISCORD_WEBHOOK_URL") /\
    os_environ w !! name = None /\
    run (discord_stop_instance.lambda_handler fuel event context) w
      = (Raise (missing_setting name), []) /\
    run (discord_check_instance.lambda_handler event context) w
      = (Raise (missing_setting name), []).
Proof.
  intros H.
  destruct (read_settings_missing w [] H) as (name & Hname & Hnone & Hrun).
  exists name. repeat split; try done.
  - unfold run, discord_stop_instance.lambda_handler.
    rewrite bind_run, Hrun. reflexivity.
  - unfold run, discord_check_instance.lambda_handler.
    rewrite bind_run, Hrun. reflexivity.
Qed.

Lemma missing_setting_is_fatal_witness :
  exists name,
    (name = "INSTANCE_ID" \/ name = "DISCORD_WEBHOOK_URL") /\
    os_environ (Double.world ∅ [] None None) !! name = None /\
    run (discord_stop_instance.lambda_handler 3 JNull JNull)
        (Double.world ∅ [] None None)
      = (Raise (missing_setting name), []) /\
    run (discord_check_instance.lambda_handler JNull JNull)
        (Double.world ∅ [] None None)
      = (Raise (missing_setting name), []).
Proof.
  apply (missing_setting_is_fatal (Double.world ∅ [] None None) 3 JNull JNull).
  left. reflexivity.
Defined.

(** The Start worker as modelled from the spec fails the same way. *)
Lemma start_missing_setting_is_fatal (w : World) content (event context : json) :
  os_environ w !! "INSTANCE_ID" = None \/
  os_environ w !! "DISCORD_WEBHOOK_URL" = None ->
  exists name,
    os_environ w !! name = None /\
    run (discord_start_instance.lambda_handler content event context) w
      = (Raise (missing_setting name), []).
Proof.
  intros H.
  destruct (read_settings_missing w [] H) as (name & Hname & Hnone & Hrun).
  exists name. split; [done|].
  unfold run, discord_start_instance.lambda_handler.
  rewrite bind_run, Hrun. reflexivity.
Qed.

(** ** The Stop worker's polling loop *)

(** The loop as written does poll when it is entered: started with
    [instance_running = True] on an instance that answers "stopping",
    "stopping", "stopped", it reads three times and sleeps twice. *)
Example while_instance_running_entered :
  discord_stop_instance.while_instance_running 5 "i-123" true
    (Double.world Double.env [("stopping", None); ("stopping", None)] None None) []
  = (Return tt,
     [Ec2_describe_instances ["i-123"]; Time_sleep 5;
      Ec2_describe_instances ["i-123"]; Time_sleep 5;
      Ec2_describe_instances ["i-123"]]).
Proof. reflexivity. Qed.

(** The handler enters it with [instance_running = False]: whatever the
    world answers and whatever the fuel, a Stop run reads no state and never
    sleeps. *)
Lemma stop_never_reads_state (w : World) (fuel : nat) (event context : json) :
  let tr := (run (discord_stop_instance.lambda_handler fuel event context) w).2 in
  count is_describe tr = 0%nat /\ count is_sleep tr = 0%nat.
Proof.
  unfold_run. split; split_answers; reflexivity.
Qed.

(** Nor does the fuel ever run out: the handler returns or raises for every
    fuel, and the fuel has no bearing on the outcome. *)
Lemma stop_is_total (w : World) (fuel : nat) (event context : json) :
  (run (discord_stop_instance.lambda_handler fuel event context) w).1 <> OutOfFuel /\
  run (discord_stop_instance.lambda_handler fuel event context) w
  = run (discord_stop_instance.lambda_handler 0 event context) w.
Proof.
  split.
  - unfold_run. split_answers; discriminate.
  - unfold_run. split_answers; reflexivity.
Qed.

(** C1. On an instance that is still "stopping" when the stop call returns
    (and "stopped" two reads later), the Stop worker posts the stopped
    message straight after the stop call: its trace holds no state read and
    no sleep, so the message goes out before any read has returned
    "stopped". *)
Theorem stop_notifies_before_any_state_read :
  run (discord_stop_instance.lambda_handler 100 JNull JNull)
      (Double.world Double.env [("stopping", None); ("stopping", None)] None None)
  = (Return "-",
     [Kms_decrypt (Double.bytes "i-123") "fn";
      Kms_decrypt (Double.bytes "https://hook") "fn";
      Ec2_stop_instances ["i-123"];
      Requests_post "https://hook"
        (JDict [("content", JStr "インスタンス【i-123】が停止しました");
                ("flags", JInt 4096)])]).
Proof. reflexivity. Qed.

(** ** Order of the Stop worker's calls *)

Lemma guarded_sound tr : forall seen,
  guarded seen tr = true ->
  forall i url data,
    tr !! i = Some (Requests_post url data) ->
    seen = true \/
    exists j ids, (j < i)%nat /\ tr !! j = Some (Ec2_stop_instances ids).
Proof.
  induction tr as [|c tr IH]; intros seen Hg i url data Hi; [done|].
  destruct i as [|i].
  - injection Hi as ->. simpl in Hg. left. by destruct seen.
  - assert (Hstep : forall seen', guarded seen' tr = true ->
                seen' = seen \/ (exists ids, c = Ec2_stop_instances ids) ->
                seen = true \/
                exists j ids, (j < S i)%nat /\ (c :: tr) !! j = Some (Ec2_stop_instances ids)).
    { intros seen' Hg' Hc.
      destruct (IH seen' Hg' i url data Hi) as [-> | (j & ids & Hj & Hlk)].
      - destruct Hc as [<- | [ids ->]]; [by left|].
        right. exists 0%nat, ids. split; [lia | done].
      - right. exists (S j), ids. split; [lia | done]. }
    destruct c; simpl in Hg;
      try (apply (Hstep seen Hg); by left).
    + apply (Hstep true Hg). right. by eexists.
    + apply andb_prop in Hg as [_ Hg]. apply (Hstep seen Hg). by left.
Qed.

Lemma posts_follow_stop tr : guarded false tr = true -> stop_precedes_posts tr.
Proof.
  intros Hg i url data Hi.
  by destruct (guarded_sound tr false Hg i url data Hi).
Qed.

Lemma quiet_after_post_sound tr :
  quiet_after_post tr = true -> no_ec2_after_post tr.
Proof.
  induction tr as [|c tr IH]; intros Hq i j url data c' Hi Hij Hj; [done|].
  destruct j as [|j]; [lia|]. simpl in Hj.
  destruct i as [|i].
  - injection Hi as ->. simpl in Hq.
    apply andb_prop in Hq as [Hall _].
    rewrite forallb_forall in Hall.
    specialize (Hall c'). rewrite negb_true_iff in Hall. apply Hall.
    apply list_elem_of_In. by eapply list_elem_of_lookup_2.
  - simpl in Hi. apply (IH) with (i := i) (j := j) (url := url) (data := data);
      [|done|lia|done].
    destruct c; simpl in Hq; try done. by apply andb_prop in Hq as [_ Hq].
Qed.

(** C8. In every run of the Stop worker each webhook POST comes after the
    stop call, nothing touches EC2 after a POST, and no start call is ever
    made.  When the settings resolve, the stop call returns and the POST
    raises a [requests.RequestException], the run ends in the RuntimeError
    that wraps it, and the trace ends with the stop call followed by the
    POST. *)
Theorem stop_notification_is_post_hoc (w : World) (fuel : nat)
    (event context : json) :
  let out := run (discord_stop_instance.lambda_handler fuel event context) w in
  stop_precedes_posts out.2 /\
  no_ec2_after_post out.2 /\
  (forall ids, Ec2_start_instances ids ∉ out.2) /\
  forall instance_id url pre e,
    settings_resolve w instance_id url pre ->
    boto3_client w "ec2" = None ->
    ec2_stop_instances w [instance_id] = None ->
    requests_post w url (discord_stop_instance.stopped_message instance_id) = Some e ->
    isinstance e [RequestException] = true ->
    out = (Raise (Exn RuntimeError ("Discord Webhook送信エラー: " +:+ str e) (Some e)),
           pre ++ [Ec2_stop_instances [instance_id];
                   Requests_post url (discord_stop_instance.stopped_message instance_id)]).
Proof.
  cbv zeta. repeat split.
  - apply posts_follow_stop. unfold_run. split_answers; reflexivity.
  - apply quiet_after_post_sound. unfold_run. split_answers; reflexivity.
  - intros ids Hin. apply list_elem_of_In in Hin. revert Hin.
    unfold_run. split_answers; cbn; intuition discriminate.
  - intros instance_id url pre e
      (ie & ue & ib & ub & name & H1 & H2 & H3 & H4 & H5 & H6 & H7 & H8 & ->)
      Hec2 Hstop Hpost He.
    unfold_run.
    rewrite H1, H2. step. rewrite H3, H5. step. rewrite H4, H6. step.
    rewrite H7. step. rewrite H8. step. rewrite Hec2, Hstop. step.
    rewrite while_false. unfold_run. step. rewrite Hpost, He. reflexivity.
Qed.

Lemma stop_notification_is_post_hoc_witness :
  run (discord_stop_instance.lambda_handler 3 JNull JNull)
      (Double.world Double.env [] None (Some Double.timed_out))
  = (Raise (Exn RuntimeError ("Discord Webhook送信エラー: " +:+ str Double.timed_out)
                (Some Double.timed_out)),
     [Kms_decrypt (Double.bytes "i-123") "fn";
      Kms_decrypt (Double.bytes "https://hook") "fn"]
     ++ [Ec2_stop_instances ["i-123"];
         Requests_post "https://hook" (discord_stop_instance.stopped_message "i-123")]).
Proof.
  apply (proj2 (proj2 (proj2 (stop_notification_is_post_hoc
           (Double.world Double.env [] None (Some Double.timed_out)) 3 JNull JNull)))
         "i-123" "https://hook").
  - exists "aS0xMjM=", "aHR0cHM6Ly9ob29r", (Double.bytes "i-123"),
      (Double.bytes "https://hook"), "fn".
    repeat split; reflexivity.
  - reflexivity.
  - reflexivity.
  - reflexivity.
  - reflexivity.
Defined.

(** ** The Status worker *)

Lemma append_assoc (a b c : string) : (a +:+ b) +:+ c = a +:+ b +:+ c.
Proof.
  induction a as [|x a IH]; [done|].
  change (String x ((a +:+ b) +:+ c) = String x (a +:+ b +:+ c)).
  by rewrite IH.
Qed.

Lemma append_nil_r (a : string) : a +:+ "" = a.
Proof.
  induction a as [|x a IH]; [done|].
  change (String x (a +:+ "") = String x a).
  by rewrite IH.
Qed.

Lemma contains_middle (a b c : string) : contains b (a +:+ b +:+ c).
Proof. by exists a, c. Qed.

Lemma contains_end (a b : string) : contains b (a +:+ b).
Proof. exists a, "". by rewrite append_nil_r. Qed.

Lemma contains_append_l (a b c : string) : contains c b -> contains c (a +:+ b).
Proof.
  intros (x & y & ->). exists (a +:+ x), y. by rewrite append_assoc.
Qed.

(** C6. When the settings resolve and the one describe call answers with an
    instance, the Status worker reads the state exactly once and then posts
    one message.  For a running instance with a public address the message
    contains the instance id and the address, and the value returned is the
    state, a space and the address; for a stopped instance the message is
    the fixed "stopped" text around the instance id, which has no place for
    an address; for any other state the message contains that state string
    as it was read. *)
Theorem status_reads_once_and_reports (w : World) (event context : json)
    (instance_id url : string) (pre : trace) (r : describe_response)
    (i : instance) :
  settings_resolve w instance_id url pre ->
  boto3_client w "ec2" = None ->
  ec2_describe_instances w 0 [instance_id] = Ok r ->
  first_instance r = Ok i ->
  exists content res,
    let out := run (discord_check_instance.lambda_handler event context) w in
    let data := JDict [("content", JStr content); ("flags", JInt 4096)] in
    out.2 = pre ++ [Ec2_describe_instances [instance_id]; Requests_post url data] /\
    count is_describe out.2 = 1%nat /\
    count is_post out.2 = 1%nat /\
    (requests_post w url data = None -> out.1 = Return res) /\
    (State_Name i = "running" ->
     forall ip, PublicIpAddress i = Some ip ->
       contains instance_id content /\ contains ip content /\
       res = State_Name i +:+ " " +:+ ip) /\
    (State_Name i = "stopped" ->
     content = "インスタンス【" +:+ instance_id +:+ "】は停止しています" /\
     res = "stopped") /\
    (State_Name i <> "running" -> State_Name i <> "stopped" ->
     contains (State_Name i) content /\ res = State_Name i).
Proof.
  intros (ie & ue & ib & ub & name & H1 & H2 & H3 & H4 & H5 & H6 & H7 & H8 & ->)
    Hec2 Hread Hfirst.
  assert (Hrun : forall content res,
    (if String.eqb (State_Name i) "running"
     then (discord_check_instance.message
             (discord_check_instance.running_content instance_id (PublicIpAddress i)),
           State_Name i +:+ " " +:+ format_opt (PublicIpAddress i))
     else if String.eqb (State_Name i) "stopped"
     then (discord_check_instance.message
             (discord_check_instance.stopped_content instance_id), State_Name i)
     else (discord_check_instance.message
             (discord_check_instance.other_content instance_id (State_Name i)),
           State_Name i))
    = (discord_check_instance.message content, res) ->
    let out := run (discord_check_instance.lambda_handler event context) w in
    let data := JDict [("content", JStr content); ("flags", JInt 4096)] in
    out.2 = [Kms_decrypt ib name; Kms_decrypt ub name]
            ++ [Ec2_describe_instances [instance_id]; Requests_post url data] /\
    count is_describe out.2 = 1%nat /\
    count is_post out.2 = 1%nat /\
    (requests_post w url data = None -> out.1 = Return res)).
  { intros content res Hbranch. cbv zeta.
    unfold_run.
    rewrite H1, H2. step. rewrite H3, H5. step. rewrite H4, H6. step.
    rewrite H7. step. rewrite H8. step. rewrite Hec2. step.
    rewrite Hread. step. rewrite Hfirst. step.
    destruct (String.eqb (State_Name i) "running");
      [| destruct (String.eqb (State_Name i) "stopped")];
      injection Hbranch as <- <-; step;
      destruct (requests_post w url _) as [e|] eqn:Hpost; step;
      try destruct (isinstance e [RequestException]); step;
      repeat split; try reflexivity; intros; try discriminate. }
  destruct (String.eqb_spec (State_Name i) "running") as [Hr|Hr];
    [| destruct (String.eqb_spec (State_Name i) "stopped") as [Hs|Hs]].
  - exists (discord_check_instance.running_content instance_id (PublicIpAddress i)),
      (State_Name i +:+ " " +:+ format_opt (PublicIpAddress i)).
    destruct (Hrun _ _ eq_refl) as (Ha & Hb & Hc & Hd).
    split; [exact Ha|]. split; [exact Hb|]. split; [exact Hc|]. split; [exact Hd|].
    split; [|split].
    + intros _ ip Hip. rewrite Hip. split; [apply contains_middle|]. split; [|done].
      unfold discord_check_instance.running_content.
      do 3 apply contains_append_l. apply contains_end.
    + intros Hs. congruence.
    + intros Hn. done.
  - exists (discord_check_instance.stopped_content instance_id), (State_Name i).
    destruct (Hrun _ _ eq_refl) as (Ha & Hb & Hc & Hd).
    split; [exact Ha|]. split; [exact Hb|]. split; [exact Hc|]. split; [exact Hd|].
    split; [|split].
    + intros Hr'. done.
    + intros _. split; [reflexivity | exact Hs].
    + intros _ Hn. done.
  - exists (discord_check_instance.other_content instance_id (State_Name i)),
      (State_Name i).
    destruct (Hrun _ _ eq_refl) as (Ha & Hb & Hc & Hd).
    split; [exact Ha|]. split; [exact Hb|]. split; [exact Hc|]. split; [exact Hd|].
    split; [|split].
    + intros Hr'. done.
    + intros Hs'. done.
    + intros _ _. split; [|done].
      unfold discord_check_instance.other_content.
      do 2 apply contains_append_l. apply contains_middle.
Qed.

Lemma status_reads_once_and_reports_witness :
  exists content res,
    let w := Double.world Double.env [("running", Some "10.0.0.5")] None None in
    let i := {| State_Name := "running"; PublicIpAddress := Some "10.0.0.5" |} in
    let out := run (discord_check_instance.lambda_handler JNull JNull) w in
    let data := JDict [("content", JStr content); ("flags", JInt 4096)] in
    out.2 = [Kms_decrypt (Double.bytes "i-123") "fn";
             Kms_decrypt (Double.bytes "https://hook") "fn"]
            ++ [Ec2_describe_instances ["i-123"]; Requests_post "https://hook" data] /\
    count is_describe out.2 = 1%nat /\
    count is_post out.2 = 1%nat /\
    (requests_post w "https://hook" data = None -> out.1 = Return res) /\
    (State_Name i = "running" ->
     forall ip, PublicIpAddress i = Some ip ->
       contains "i-123" content /\ contains ip content /\
       res = State_Name i +:+ " " +:+ ip) /\
    (State_Name i = "stopped" ->
     content = "インスタンス【" +:+ "i-123" +:+ "】は停止しています" /\
     res = "stopped") /\
    (State_Name i <> "running" -> State_Name i <> "stopped" ->
     contains (State_Name i) content /\ res = State_Name i).
Proof.
  apply (status_reads_once_and_reports
           (Double.world Double.env [("running", Some "10.0.0.5")] None None)
           JNull JNull "i-123" "https://hook" _
           (Double.answer "running" (Some "10.0.0.5"))
           {| State_Name := "running"; PublicIpAddress := Some "10.0.0.5" |}).
  - exists "aS0xMjM=", "aHR0cHM6Ly9ob29r", (Double.bytes "i-123"),
      (Double.bytes "https://hook"), "fn".
    repeat split; reflexivity.
  - reflexivity.
  - reflexivity.
  - reflexivity.
Defined.

(** C9. Two Status runs in worlds that agree on the environment, on what the
    settings decode and decrypt to, and on what the instance answers, make
    the same webhook POSTs, to the same destination with the same payload,
    whatever else differs between the two worlds (how the POST ends, the
    event, the context). *)
Theorem status_content_is_reproducible (w1 w2 : World)
    (event1 context1 event2 context2 : json) :
  os_environ w1 = os_environ w2 ->
  (forall s, b64decode w1 s = b64decode w2 s) ->
  (forall service, boto3_client w1 service = boto3_client w2 service) ->
  (forall blob name, kms_decrypt w1 blob name = kms_decrypt w2 blob name) ->
  (forall n ids,
     ec2_describe_instances w1 n ids = ec2_describe_instances w2 n ids) ->
  posts (run (discord_check_instance.lambda_handler event1 context1) w1).2
  = posts (run (discord_check_instance.lambda_handler event2 context2) w2).2.
Proof.
  intros Henv Hb64 Hboto Hkms Hec2.
  unfold_run. rewrite <- Henv.
  repeat (cbn [fst snd];
          first
            [ rewrite <- Hb64 | rewrite <- Hboto | rewrite <- Hkms
            | rewrite <- Hec2
            | match goal with
              | |- context [match ?x with _ => _ end] => destruct_inner x
              end ]);
    reflexivity.
Qed.

Lemma status_content_is_reproducible_witness :
  posts (run (discord_check_instance.lambda_handler JNull JNull)
             (Double.world Double.env [("running", Some "10.0.0.5")] None None)).2
  = posts (run (discord_check_instance.lambda_handler (JInt 7) (JStr "ctx"))
               (Double.world Double.env [("running", Some "10.0.0.5")]
                  (Some Double.forged) (Some Double.timed_out))).2.
Proof.
  apply (status_content_is_reproducible
           (Double.world Double.env [("running", Some "10.0.0.5")] None None)
           (Double.world Double.env [("running", Some "10.0.0.5")]
              (Some Double.forged) (Some Double.timed_out))
           JNull JNull (JInt 7) (JStr "ctx"));
    intros; reflexivity.
Defined.

(** What the two runs of the witness post. *)
Example status_content_reproduced :
  posts (run (discord_check_instance.lambda_handler (JInt 7) (JStr "ctx"))
             (Double.world Double.env [("running", Some "10.0.0.5")]
                (Some Double.forged) (Some Double.timed_out))).2
  = [("https://hook",
      JDict [("content",
              JStr ("インスタンス【i-123】は起動済みです" +:+ discord_check_instance.CR
                    +:+ "10.0.0.5"));
             ("flags", JInt 4096)])].
Proof. reflexivity. Qed.

(** ** The flags of outbound payloads *)

Lemma posts_carry_4096_sound tr :
  posts_carry_4096 tr = true ->
  forall url data, (url, data) ∈ posts tr -> flags data = Some (JInt 4096).
Proof.
  unfold posts_carry_4096. rewrite forallb_forall.
  intros Hall url data Hin. apply list_elem_of_In in Hin.
  specialize (Hall _ Hin). simpl in Hall.
  destruct (flags data) as [[| |n| | |]|]; try discriminate.
  apply Z.eqb_eq in Hall. by subst.
Qed.

(** C10. In every run of the Stop worker, of the Status worker and of the
    Start worker (as modelled from the spec), each webhook POST carries
    flags 4096; each acknowledgment [invoke_lambda_function] returns
    carries flags 4096; and a response of the gateway either carries flags
    4096 or has no flags at all. *)
Theorem every_payload_carries_flags_4096 (w : World) (fuel : nat)
    (started : string -> string) (event context : json)
    (ev : discord_webhook_app.event)
    (function_name success_message : string) (tr : trace) :
  (forall url data,
     (url, data) ∈ posts (run (discord_stop_instance.lambda_handler fuel event context) w).2 ->
     flags data = Some (JInt 4096)) /\
  (forall url data,
     (url, data) ∈ posts (run (discord_check_instance.lambda_handler event context) w).2 ->
     flags data = Some (JInt 4096)) /\
  (forall url data,
     (url, data) ∈ posts (run (discord_start_instance.lambda_handler started event context) w).2 ->
     flags data = Some (JInt 4096)) /\
  (forall r,
     (discord_webhook_app.invoke_lambda_function function_name success_message w tr).1
       = Return r ->
     response_flags r = Some (JInt 4096)) /\
  (forall r,
     (run (discord_webhook_app.lambda_handler ev context) w).1 = Return r ->
     response_flags r = Some (JInt 4096) \/ response_flags r = None).
Proof.
  repeat split.
  - apply posts_carry_4096_sound. unfold_run. split_answers; reflexivity.
  - apply posts_carry_4096_sound. unfold_run. split_answers; reflexivity.
  - apply posts_carry_4096_sound. unfold_run. split_answers; reflexivity.
  - intros r. unfold_run. split_answers; intros [= <-]; reflexivity.
  - intros r. unfold_run.
    split_answers; intros [= <-]; (by left) || (by right).
Qed.

(** ** The gateway *)

Import discord_webhook_app.

(** C5. Whenever the Lambda client is there and accepts the trigger,
    [invoke_lambda_function] makes one call, an invocation of the named
    function with InvocationType "Event" (queued, not awaited), and returns
    status 200 with the body [{type: 4, data: {content: success_message,
    flags: 4096}}].  Nothing the worker does later is read: the reply is the
    same in every such world. *)
Theorem invoke_acknowledges_without_waiting (w : World)
    (function_name success_message : string) (tr : trace) :
  boto3_client w "lambda" = None ->
  lambda_invoke w function_name "Event" = None ->
  invoke_lambda_function function_name success_message w tr
  = (Return (acknowledgment success_message),
     tr ++ [Lambda_invoke function_name "Event"]).
Proof.
  intros Hclient Hinvoke. unfold_run. by rewrite Hclient, Hinvoke.
Qed.

Lemma invoke_acknowledges_without_waiting_witness :
  invoke_lambda_function "discord-stop-instance" "サーバーを停止しています・・・"
    (Double.world Double.env [("running", None)] None (Some Double.timed_out)) []
  = (Return (acknowledgment "サーバーを停止しています・・・"),
     [] ++ [Lambda_invoke "discord-stop-instance" "Event"]).
Proof.
  apply (invoke_acknowledges_without_waiting
           (Double.world Double.env [("running", None)] None (Some Double.timed_out))
           "discord-stop-instance" "サーバーを停止しています・・・" []);
    reflexivity.
Defined.

(** When the trigger itself is refused, the error is raised to the caller
    and there is no reply. *)
Lemma invoke_refused (w : World) (function_name success_message : string)
    (tr : trace) (e : exn) :
  boto3_client w "lambda" = None ->
  lambda_invoke w function_name "Event" = Some e ->
  invoke_lambda_function function_name success_message w tr
  = (Raise e, tr ++ [Lambda_invoke function_name "Event"]).
Proof.
  intros Hclient Hinvoke. unfold_run. by rewrite Hclient, Hinvoke.
Qed.

Lemma command_handler_run (w : World) (body command action : json) (tr : trace) :
  command_of body command action ->
  command_handler body w tr =
  (if eq_str command "server" then
     if eq_str action "start" then
       invoke_lambda_function "discord-start-instance"
                              "サーバーを起動しています・・・"
     else if eq_str action "stop" then
       invoke_lambda_function "discord-stop-instance"
                              "サーバーを停止しています・・・"
     else if eq_str action "status" then
       invoke_lambda_function "discord-check-instance"
                              "サーバーステータスを取得しています・・・"
     else mret unhandled_command
   else mret unhandled_command) w tr.
Proof.
  intros (data & options & option0 & H1 & H2 & H3 & H4 & H5).
  unfold command_handler, pure, lib, mbind, M_bind, bind.
  cbn beta. rewrite H1. cbn beta iota. rewrite H2. cbn beta iota.
  rewrite H3. cbn beta iota. rewrite H4. cbn beta iota. rewrite H5.
  reflexivity.
Qed.









(** Neither a prefix of an action, nor another spelling of the command, nor
    an action that is not a string is matched. *)
Example dispatch_is_exact :
  command_handler (Double.command_payload "server" "star")
    (Double.world Double.env [] None None) [] = (Return unhandled_command, []) /\
  command_handler (Double.command_payload "Server" "start")
    (Double.world Double.env [] None None) [] = (Return unhandled_command, []) /\
  command_handler
    (JDict [("data", JDict [("name", JStr "server");
                            ("options", JList [JDict [("value", JInt 1)]])])])
    (Double.world Double.env [] None None) [] = (Return unhandled_command, []).
Proof. repeat split; reflexivity. Qed.

Ltac use_answers :=
  repeat (step;
          match goal with
          | H : ?l = _ |- context [?l] => rewrite H
          end);
  step.

(** C4. For a request that passes the Ed25519 check: if the payload's type
    is the integer 1, the reply is status 200 with body [{type: 1}], whatever
    else the payload holds; if it is an integer other than 1 and 2, or no
    number at all, the reply is status 400 with body "unhandled request
    type".  In both cases no call is made after the key was decrypted. *)
Theorem ping_and_unknown_types (w : World) (ev : event) (context payload : json)
    (pre : trace) (key : list byte) (message : string) (sig : list byte) :
  reaches_verification w ev payload pre key message sig ->
  nacl_verify w key message sig = None ->
  (getitem payload "type" = Ok (JInt 1) ->
   run (lambda_handler ev context) w
   = (Return {| statusCode := 200; headers := None;
                body := json_dumps (JDict [("type", JInt 1)]) |}, pre)) /\
  (forall v,
     getitem payload "type" = Ok v ->
     (exists t, v = JInt t /\ t <> 1 /\ t <> 2) \/ not_a_number v ->
     run (lambda_handler ev context) w
     = (Return {| statusCode := 400; headers := None;
                  body := json_dumps (JStr "unhandled request type") |}, pre)).
Proof.
  intros (ke & blob & name & pk & sg & ts & H1 & H2 & H3 & H4 & H5 & H6 & H7
          & H8 & H9 & H10 & H11 & -> & ->) Hverify.
  split.
  - intros Hty. unfold_run. use_answers. reflexivity.
  - intros v Hty Hv. unfold_run. use_answers.
    assert (eq_int v 1 = false /\ eq_int v 2 = false) as [-> ->].
    { destruct Hv as [(t & -> & Ht1 & Ht2) | Hv].
      - simpl. split; apply Z.eqb_neq; done.
      - destruct v; simpl in *; try done. }
    reflexivity.
Qed.

Lemma ping_and_unknown_types_witness :
  run (lambda_handler (Double.request Double.ping_body Double.signed_headers) JNull)
      (Double.world Double.env [] None None)
  = (Return {| statusCode := 200; headers := None;
               body := json_dumps (JDict [("type", JInt 1)]) |},
     [Kms_decrypt (Double.bytes "key") "fn"]) /\
  run (lambda_handler (Double.request Double.modal_body Double.signed_headers) JNull)
      (Double.world Double.env [] None None)
  = (Return {| statusCode := 400; headers := None;
               body := json_dumps (JStr "unhandled request type") |},
     [Kms_decrypt (Double.bytes "key") "fn"]).
Proof.
  split.
  - apply (proj1 (ping_and_unknown_types (Double.world Double.env [] None None)
             (Double.request Double.ping_body Double.signed_headers) JNull
             Double.ping_payload [Kms_decrypt (Double.bytes "key") "fn"]
             (repeat x00 32) ("1700000000" +:+ Double.ping_body) [x00; xff]
             ltac:(exists "a2V5", (Double.bytes "key"), "fn",
                     Double.public_key_hex, "00ff", "1700000000";
                   repeat split; reflexivity)
             eq_refl)).
    reflexivity.
  - apply (proj2 (ping_and_unknown_types (Double.world Double.env [] None None)
             (Double.request Double.modal_body Double.signed_headers) JNull
             Double.modal_payload [Kms_decrypt (Double.bytes "key") "fn"]
             (repeat x00 32) ("1700000000" +:+ Double.modal_body) [x00; xff]
             ltac:(exists "a2V5", (Double.bytes "key"), "fn",
                     Double.public_key_hex, "00ff", "1700000000";
                   repeat split; reflexivity)
             eq_refl) (JInt 5)).
    + reflexivity.
    + left. exists 5. repeat split; lia.
Defined.

(** A ping with extra fields, and a modal submit (type 5). *)
Example ping_and_modal :
  run (lambda_handler (Double.request Double.ping_body Double.signed_headers) JNull)
      (Double.world Double.env [] None None)
  = (Return pong, [Kms_decrypt (Double.bytes "key") "fn"]) /\
  run (lambda_handler (Double.request Double.modal_body Double.signed_headers) JNull)
      (Double.world Double.env [] None None)
  = (Return unhandled_request_type, [Kms_decrypt (Double.bytes "key") "fn"]).
Proof. split; reflexivity. Qed.

(** ** Signature failures *)

Lemma count_log (p : call -> bool) (tr : trace) (c : call) :
  count p (log tr c) = (count p tr + if p c then 1 else 0)%nat.
Proof.
  unfold log. induction tr as [|c' tr IH]; simpl; [lia|]. rewrite IH. lia.
Qed.

Lemma decrypt_env_varibles_invokes_nothing (w : World) (r : result string)
    (pre : trace) :
  decrypt_env_varibles w [] = (r, pre) -> count is_invoke pre = 0%nat.
Proof.
  unfold_run. split_answers; intros [= <- <-]; reflexivity.
Qed.

Lemma isinstance_Exception (e : exn) : isinstance e [Exception] = true.
Proof. destruct e as [[] msg cause]; reflexivity. Qed.

(** C2, as stated, fails: a request without the signature header is not
    answered 401.  The lookup of the header raises KeyError, which the
    handler prints and raises again. *)
Lemma missing_signature_header_raises :
  event_headers (Double.request Double.ping_body ∅) !! "x-signature-ed25519" = None /\
  run (lambda_handler (Double.request Double.ping_body ∅) JNull)
      (Double.world Double.env [] None None)
  = (Raise (key_error "x-signature-ed25519"),
     [Kms_decrypt (Double.bytes "key") "fn"; Print "[ERROR] 'x-signature-ed25519'"]) /\
  (run (lambda_handler (Double.request Double.ping_body ∅) JNull)
       (Double.world Double.env [] None None)).1
  <> Return {| statusCode := 401; headers := None;
               body := json_dumps (JStr "invalid request signature") |}.
Proof. repeat split. discriminate. Qed.

(** The same for a signature that is not hexadecimal. *)
Example non_hex_signature_raises :
  run (lambda_handler
         (Double.request Double.ping_body
            {[ "x-signature-ed25519" := "zz"; "x-signature-timestamp" := "1700000000" ]})
         JNull)
      (Double.world Double.env [] (Some Double.forged) None)
  = (Raise (Exn ValueError
              "non-hexadecimal number found in fromhex() arg at position 0" None),
     [Kms_decrypt (Double.bytes "key") "fn";
      Print "[ERROR] non-hexadecimal number found in fromhex() arg at position 0"]).
Proof. reflexivity. Qed.

Lemma fromhex_error_is_no_bad_signature (text : string) (e : exn) :
  fromhex text = Err e -> isinstance e [BadSignatureError] = false.
Proof.
  unfold fromhex. destruct (fromhex_bytes text); intros [= <-]. reflexivity.
Qed.

(** Where [bytes.fromhex] finds the fault: a character that is no digit, a
    digit without a partner, a blank inside a pair, a character outside
    ASCII. *)
Example fromhex_positions :
  fromhex "zz" = Err (Exn ValueError
    "non-hexadecimal number found in fromhex() arg at position 0" None) /\
  fromhex "00f" = Err (Exn ValueError
    "non-hexadecimal number found in fromhex() arg at position 3" None) /\
  fromhex "00 0 0" = Err (Exn ValueError
    "non-hexadecimal number found in fromhex() arg at position 4" None) /\
  fromhex "00é" = Err (Exn ValueError
    "non-hexadecimal number found in fromhex() arg at position 2" None) /\
  fromhex "00 ff" = Ok [x00; xff].
Proof. repeat split; reflexivity. Qed.

(** C2, amended. Once the public key is decrypted and the body has parsed
    (to any payload): when the Ed25519 check of the timestamp followed by
    the raw body raises BadSignatureError, the reply is status 401 with body
    "invalid request signature" and nothing is called after the key
    decryption.  When the signature header or the timestamp header is
    missing, when the public key or the signature is not hexadecimal, when
    the verifier refuses the key, or when the check raises any other error,
    the run ends in that very error, printed as "[ERROR] " and its text and
    then raised again, and nothing else is called: there is no reply, and no
    worker is invoked. *)
Theorem signature_failures (w : World) (ev : event) (context payload : json)
    (public_key : string) (pre : trace) :
  key_decrypts w public_key pre ->
  json_loads w (event_body ev) = Ok payload ->
  (event_headers ev !! "x-signature-ed25519" = None ->
   run (lambda_handler ev context) w
   = logged pre (key_error "x-signature-ed25519")) /\
  (forall signature,
     event_headers ev !! "x-signature-ed25519" = Some signature ->
     event_headers ev !! "x-signature-timestamp" = None ->
     run (lambda_handler ev context) w
     = logged pre (key_error "x-signature-timestamp")) /\
  (forall signature timestamp,
     event_headers ev !! "x-signature-ed25519" = Some signature ->
     event_headers ev !! "x-signature-timestamp" = Some timestamp ->
     (forall e,
        fromhex public_key = Err e ->
        run (lambda_handler ev context) w = logged pre e) /\
     (forall key,
        fromhex public_key = Ok key ->
        (forall e,
           nacl_VerifyKey w key = Some e ->
           run (lambda_handler ev context) w = logged pre e) /\
        (nacl_VerifyKey w key = None ->
         (forall e,
            fromhex signature = Err e ->
            run (lambda_handler ev context) w = logged pre e) /\
         (forall sig e,
            fromhex signature = Ok sig ->
            nacl_verify w key (timestamp +:+ event_body ev) sig = Some e ->
            (isinstance e [BadSignatureError] = true ->
             run (lambda_handler ev context) w
             = (Return {| statusCode := 401; headers := None;
                          body := json_dumps (JStr "invalid request signature") |},
                pre)) /\
            (isinstance e [BadSignatureError] = false ->
             run (lambda_handler ev context) w = logged pre e))))).
Proof.
  intros (ke & blob & name & H1 & H2 & H3 & H4 & H5 & ->) Hjson.
  unfold logged.
  split; [|split].
  - intros Hsig. unfold_run. use_answers.
    rewrite ?isinstance_Exception. reflexivity.
  - intros signature Hsig Hts. unfold_run. use_answers.
    rewrite ?isinstance_Exception. reflexivity.
  - intros signature timestamp Hsig Hts. split.
    + intros e Hpk. unfold_run. use_answers.
      rewrite ?isinstance_Exception. reflexivity.
    + intros key Hpk. split.
      * intros e Hkey. unfold_run. use_answers.
        rewrite ?isinstance_Exception. reflexivity.
      * intros Hkey. split.
        -- intros e Hhex.
           pose proof (fromhex_error_is_no_bad_signature _ _ Hhex) as Hclass.
           unfold_run. use_answers.
           rewrite ?isinstance_Exception. reflexivity.
        -- intros sig e Hhex Hverify.
           split; intros He; unfold_run; use_answers;
             rewrite ?isinstance_Exception; reflexivity.
Qed.

Lemma signature_failures_witness :
  run (lambda_handler (Double.request Double.start_body ∅) JNull) Fault.forging
  = logged [Kms_decrypt (Double.bytes "key") "fn"]
           (key_error "x-signature-ed25519") /\
  run (lambda_handler (Double.request Double.start_body Fault.headers64) JNull)
      Fault.forging
  = (Return {| statusCode := 401; headers := None;
               body := json_dumps (JStr "invalid request signature") |},
     [Kms_decrypt (Double.bytes "key") "fn"]).
Proof.
  split.
  - apply (proj1 (signature_failures Fault.forging
                    (Double.request Double.start_body ∅) JNull
                    (Double.command_payload "server" "start")
                    Double.public_key_hex [Kms_decrypt (Double.bytes "key") "fn"]
                    ltac:(exists "a2V5", (Double.bytes "key"), "fn";
                          repeat split; reflexivity)
                    eq_refl)).
    reflexivity.
  - apply (proj1 (proj2 (proj2 (proj2 (proj2 (proj2 (signature_failures Fault.forging
                    (Double.request Double.start_body Fault.headers64) JNull
                    (Double.command_payload "server" "start")
                    Double.public_key_hex [Kms_decrypt (Double.bytes "key") "fn"]
                    ltac:(exists "a2V5", (Double.bytes "key"), "fn";
                          repeat split; reflexivity)
                    eq_refl))
                  Fault.signature_hex "1700000000" eq_refl eq_refl)
                (repeat x00 32) eq_refl) eq_refl)
              (repeat x00 64) Double.forged eq_refl eq_refl)).
    reflexivity.
Defined.

(** The verifier of that witness was handed a key of 32 bytes and a
    signature of 64. *)
Example witness_lengths :
  fromhex Double.public_key_hex = Ok (repeat x00 32) /\
  fromhex Fault.signature_hex = Ok (repeat x00 64).
Proof. split; reflexivity. Qed.

Lemma every_payload_carries_flags_4096_witness :
  flags (discord_stop_instance.stopped_message "i-123") = Some (JInt 4096) /\
  response_flags (acknowledgment "サーバーを起動しています・・・") = Some (JInt 4096).
Proof.
  split.
  - apply (proj1 (every_payload_carries_flags_4096
             (Double.world Double.env [] None None) 3 (fun id => id) JNull JNull
             (Double.request Double.start_body Double.signed_headers)
             "discord-start-instance" "サーバーを起動しています・・・" [])
           "https://hook").
    vm_compute. set_solver.
  - apply (proj1 (proj2 (proj2 (proj2 (every_payload_carries_flags_4096
             (Double.world Double.env [] None None) 3 (fun id => id) JNull JNull
             (Double.request Double.start_body Double.signed_headers)
             "discord-start-instance" "サーバーを起動しています・・・" []))))).
    reflexivity.
Defined.

(** * Further properties *)

(** ** The gateway as a whole *)

Ltac split_all_answers :=
  repeat (cbn [fst snd];
          first
            [ rewrite isinstance_Exception
            | rewrite while_false; unfold_run
            | match goal with
              | |- context [match ?x with _ => _ end] => destruct_inner x
              end ]).

(** X1. Whatever the services answer, one run of the gateway decrypts at
    most one secret, triggers at most one worker, and never calls EC2, never
    posts to the webhook and never sleeps. *)
Theorem gateway_calls_are_bounded (w : World) (ev : event) (context : json) :
  (count is_kms (run (lambda_handler ev context) w).2 <= 1)%nat /\
  (count is_invoke (run (lambda_handler ev context) w).2 <= 1)%nat /\
  count is_ec2 (run (lambda_handler ev context) w).2 = 0%nat /\
  count is_post (run (lambda_handler ev context) w).2 = 0%nat /\
  count is_sleep (run (lambda_handler ev context) w).2 = 0%nat.
Proof.
  unfold_run. split_all_answers; cbn; repeat split; lia.
Qed.

(** X2. The gateway triggers a worker only for a request it has verified:
    if a run contains a Lambda invocation, then both signature headers were
    present, the signature was hexadecimal, the key came out of KMS, and the
    Ed25519 check of the timestamp followed by the raw body, under that key
    and signature, passed. *)
Theorem gateway_invokes_only_verified (w : World) (ev : event) (context : json) :
  count is_invoke (run (lambda_handler ev context) w).2 <> 0%nat ->
  exists blob name public_key key timestamp signature sig,
    kms_decrypt w blob name = Ok public_key /\
    fromhex public_key = Ok key /\
    nacl_VerifyKey w key = None /\
    event_headers ev !! "x-signature-timestamp" = Some timestamp /\
    event_headers ev !! "x-signature-ed25519" = Some signature /\
    fromhex signature = Ok sig /\
    nacl_verify w key (timestamp +:+ event_body ev) sig = None.
Proof.
  unfold_run. split_all_answers; cbn; intros Hcount; try (by destruct Hcount);
    repeat eexists; eassumption.
Qed.

Lemma gateway_invokes_only_verified_witness :
  exists blob name public_key key timestamp signature sig,
    kms_decrypt Fault.healthy blob name = Ok public_key /\
    fromhex public_key = Ok key /\
    nacl_VerifyKey Fault.healthy key = None /\
    event_headers (Double.request Double.start_body Double.signed_headers)
      !! "x-signature-timestamp" = Some timestamp /\
    event_headers (Double.request Double.start_body Double.signed_headers)
      !! "x-signature-ed25519" = Some signature /\
    fromhex signature = Ok sig /\
    nacl_verify Fault.healthy key
      (timestamp +:+ event_body (Double.request Double.start_body Double.signed_headers))
      sig = None.
Proof.
  apply (gateway_invokes_only_verified Fault.healthy
           (Double.request Double.start_body Double.signed_headers) JNull).
  vm_compute. discriminate.
Defined.

(** X3. Once the public key is decrypted, every exception a run of the
    gateway ends in has been printed, as "[ERROR] " followed by its text, in
    the last call of the run; a run that ends in a reply prints nothing. *)
Theorem gateway_logs_what_it_raises (w : World) (ev : event) (context : json)
    (public_key : string) (pre : trace) :
  key_decrypts w public_key pre ->
  match (run (lambda_handler ev context) w).1 with
  | Raise e =>
      exists tr, (run (lambda_handler ev context) w).2
                 = tr ++ [Print ("[ERROR] " +:+ str e)]
  | Return _ => count is_print (run (lambda_handler ev context) w).2 = 0%nat
  | OutOfFuel => False
  end.
Proof.
  intros (ke & blob & name & H1 & H2 & H3 & H4 & H5 & ->).
  unfold_run. rewrite H1, H2. step. rewrite H3, H4. step. rewrite H5. step.
  split_all_answers; cbn [fst snd]; first [reflexivity | by eexists].
Qed.

Lemma gateway_logs_what_it_raises_witness :
  match (run (lambda_handler (Double.request Double.start_body ∅) JNull)
             Fault.healthy).1 with
  | Raise e =>
      exists tr, (run (lambda_handler (Double.request Double.start_body ∅) JNull)
                      Fault.healthy).2
                 = tr ++ [Print ("[ERROR] " +:+ str e)]
  | Return _ =>
      count is_print (run (lambda_handler (Double.request Double.start_body ∅) JNull)
                          Fault.healthy).2 = 0%nat
  | OutOfFuel => False
  end.
Proof.
  apply (gateway_logs_what_it_raises Fault.healthy
           (Double.request Double.start_body ∅) JNull Double.public_key_hex
           [Kms_decrypt (Double.bytes "key") "fn"]).
  exists "a2V5", (Double.bytes "key"), "fn". repeat split; reflexivity.
Defined.

(** X4. When KMS refuses to decrypt the public key with a BotoCoreError or
    a ClientError, the gateway raises the RuntimeError that wraps it.  This
    happens before the handler's [try]: nothing is printed, the body is not
    parsed and no signature is looked at. *)
Theorem gateway_key_decryption_failure (w : World) (ev : event) (context : json)
    (key_encrypted : string) (blob : list byte) (name : string) (e : exn) :
  boto3_client w "kms" = None ->
  os_environ w !! "DISCORD_PUBLIC_KEY" = Some key_encrypted ->
  b64decode w key_encrypted = Ok blob ->
  os_environ w !! "AWS_LAMBDA_FUNCTION_NAME" = Some name ->
  kms_decrypt w blob name = Err e ->
  isinstance e [BotoCoreError; ClientError] = true ->
  run (lambda_handler ev context) w
  = (Raise (Exn RuntimeError ("KMS復号エラー: " +:+ str e) (Some e)),
     [Kms_decrypt blob name]).
Proof.
  intros H1 H2 H3 H4 H5 H6. unfold_run.
  rewrite H1, H2. step. rewrite H3, H4. step. rewrite H5. step.
  by rewrite H6.
Qed.

Lemma gateway_key_decryption_failure_witness :
  run (lambda_handler (Double.request Double.start_body Double.signed_headers) JNull)
      (Fault.kms_down Fault.access_denied Fault.healthy)
  = (Raise (Exn RuntimeError ("KMS復号エラー: " +:+ str Fault.access_denied)
                (Some Fault.access_denied)),
     [Kms_decrypt (Double.bytes "key") "fn"]).
Proof.
  apply (gateway_key_decryption_failure
           (Fault.kms_down Fault.access_denied Fault.healthy)
           (Double.request Double.start_body Double.signed_headers) JNull
           "a2V5" (Double.bytes "key") "fn" Fault.access_denied);
    reflexivity.
Defined.

(** X5. The body is parsed before anything of the signature is read: when
    the body is not JSON, the run ends in the parser's error (printed, then
    raised), whatever the headers hold and whatever the verifier would say. *)
Theorem gateway_parses_before_verifying (w : World) (ev : event) (context : json)
    (public_key : string) (pre : trace) (e : exn) :
  key_decrypts w public_key pre ->
  json_loads w (event_body ev) = Err e ->
  run (lambda_handler ev context) w
  = (Raise e, pre ++ [Print ("[ERROR] " +:+ str e)]).
Proof.
  intros (ke & blob & name & H1 & H2 & H3 & H4 & H5 & ->) Hjson.
  unfold_run. rewrite H1, H2. step. rewrite H3, H4. step. rewrite H5. step.
  rewrite Hjson. step. by rewrite isinstance_Exception.
Qed.

Lemma gateway_parses_before_verifying_witness :
  run (lambda_handler (Double.request "not json" Double.signed_headers) JNull)
      Fault.healthy
  = (Raise (Exn JSONDecodeError "Expecting value" None),
     [Kms_decrypt (Double.bytes "key") "fn"]
     ++ [Print ("[ERROR] " +:+ str (Exn JSONDecodeError "Expecting value" None))]).
Proof.
  apply (gateway_parses_before_verifying Fault.healthy
           (Double.request "not json" Double.signed_headers) JNull
           Double.public_key_hex).
  - exists "a2V5", (Double.bytes "key"), "fn". repeat split; reflexivity.
  - reflexivity.
Defined.

(** X6. For a verified request of type 2 the gateway's outcome is the
    dispatcher's: a reply of [command_handler] is returned as it is, with the
    dispatcher's calls and none added; an exception of [command_handler]
    (a payload without the fields, a refused trigger) is printed and raised
    again. *)
Theorem gateway_hands_commands_to_dispatcher (w : World) (ev : event)
    (context payload : json) (pre : trace) (key : list byte) (message : string)
    (sig : list byte) :
  reaches_verification w ev payload pre key message sig ->
  nacl_verify w key message sig = None ->
  getitem payload "type" = Ok (JInt 2) ->
  run (lambda_handler ev context) w
  = match command_handler payload w pre with
    | (Raise e, tr) => (Raise e, tr ++ [Print ("[ERROR] " +:+ str e)])
    | out => out
    end.
Proof.
  intros (ke & blob & name & pk & sg & ts & H1 & H2 & H3 & H4 & H5 & H6 & H7
          & H8 & H9 & H10 & H11 & -> & ->) Hverify Hty.
  unfold run, lambda_handler, decrypt_env_varibles, header, kms_client_decrypt,
    environ, pure, try_except, service, service_, lib, lib_, raise_from, raise,
    print, mbind, M_bind, bind, mret, M_ret, ret.
  use_answers.
  destruct (command_handler payload w _) as [[r|e|] tr]; try reflexivity.
  by rewrite isinstance_Exception.
Qed.

Lemma gateway_hands_commands_to_dispatcher_witness :
  run (lambda_handler (Double.request Double.start_body Double.signed_headers) JNull)
      (Fault.lambda_down Fault.access_denied Fault.healthy)
  = match command_handler (Double.command_payload "server" "start")
            (Fault.lambda_down Fault.access_denied Fault.healthy)
            [Kms_decrypt (Double.bytes "key") "fn"] with
    | (Raise e, tr) => (Raise e, tr ++ [Print ("[ERROR] " +:+ str e)])
    | out => out
    end.
Proof.
  apply (gateway_hands_commands_to_dispatcher
           (Fault.lambda_down Fault.access_denied Fault.healthy)
           (Double.request Double.start_body Double.signed_headers) JNull
           (Double.command_payload "server" "start")
           [Kms_decrypt (Double.bytes "key") "fn"]
           (repeat x00 32) ("1700000000" +:+ Double.start_body) [x00; xff]).
  - exists "a2V5", (Double.bytes "key"), "fn", Double.public_key_hex,
      "00ff", "1700000000".
    repeat split; reflexivity.
  - reflexivity.
  - reflexivity.
Defined.

(** What that run is: the refused trigger, printed and raised. *)
Example refused_trigger_is_logged :
  run (lambda_handler (Double.request Double.start_body Double.signed_headers) JNull)
      (Fault.lambda_down Fault.access_denied Fault.healthy)
  = (Raise Fault.access_denied,
     [Kms_decrypt (Double.bytes "key") "fn";
      Lambda_invoke "discord-start-instance" "Event";
      Print "[ERROR] AccessDeniedException"]).
Proof. reflexivity. Qed.

(** ** The dispatcher's lookups *)


(** A command sent without options is such a payload. *)
Example command_without_options :
  command_handler (JDict [("type", JInt 2); ("data", JDict [("name", JStr "server")])])
    Fault.healthy []
  = (Raise (key_error "options"), []).
Proof. reflexivity. Qed.

(** ** Failures of a worker before it notifies *)

(** X8. When KMS refuses the first decryption with a BotoCoreError or a
    ClientError, the Stop worker and the Status worker raise the RuntimeError
    that wraps it, after that one KMS call: the instance is not touched and
    nothing is posted. *)
Theorem worker_kms_failure (w : World) (fuel : nat) (event context : json)
    (id_encrypted url_encrypted : string) (blob : list byte) (name : string)
    (e : exn) :
  os_environ w !! "INSTANCE_ID" = Some id_encrypted ->
  os_environ w !! "DISCORD_WEBHOOK_URL" = Some url_encrypted ->
  boto3_client w "kms" = None ->
  b64decode w id_encrypted = Ok blob ->
  os_environ w !! "AWS_LAMBDA_FUNCTION_NAME" = Some name ->
  kms_decrypt w blob name = Err e ->
  isinstance e [BotoCoreError; ClientError] = true ->
  run (discord_stop_instance.lambda_handler fuel event context) w
  = (Raise (Exn RuntimeError ("KMS復号エラー: " +:+ str e) (Some e)),
     [Kms_decrypt blob name]) /\
  run (discord_check_instance.lambda_handler event context) w
  = (Raise (Exn RuntimeError ("KMS復号エラー: " +:+ str e) (Some e)),
     [Kms_decrypt blob name]).
Proof.
  intros H1 H2 H3 H4 H5 H6 H7.
  split; unfold_run; rewrite H1, H2; step; rewrite H3, H4; step;
    rewrite H5; step; rewrite H6; step; by rewrite H7.
Qed.

Lemma worker_kms_failure_witness :
  run (discord_stop_instance.lambda_handler 3 JNull JNull)
      (Fault.kms_down Fault.access_denied Fault.healthy)
  = (Raise (Exn RuntimeError ("KMS復号エラー: " +:+ str Fault.access_denied)
                (Some Fault.access_denied)),
     [Kms_decrypt (Double.bytes "i-123") "fn"]) /\
  run (discord_check_instance.lambda_handler JNull JNull)
      (Fault.kms_down Fault.access_denied Fault.healthy)
  = (Raise (Exn RuntimeError ("KMS復号エラー: " +:+ str Fault.access_denied)
                (Some Fault.access_denied)),
     [Kms_decrypt (Double.bytes "i-123") "fn"]).
Proof.
  apply (worker_kms_failure (Fault.kms_down Fault.access_denied Fault.healthy)
           3 JNull JNull "aS0xMjM=" "aHR0cHM6Ly9ob29r" (Double.bytes "i-123") "fn"
           Fault.access_denied);
    reflexivity.
Defined.

(** X9. AWS_LAMBDA_FUNCTION_NAME is read inside the KMS [try], whose
    [except] clause names only BotoCoreError and ClientError: when the
    variable is not set, the gateway and both workers end in the bare
    KeyError (in the workers, not the ValueError of a missing setting),
    before any call to KMS. *)
Theorem missing_function_name (w : World) (fuel : nat) (ev : event)
    (event context : json) (id_encrypted url_encrypted key_encrypted : string)
    (id_blob key_blob : list byte) :
  os_environ w !! "AWS_LAMBDA_FUNCTION_NAME" = None ->
  boto3_client w "kms" = None ->
  os_environ w !! "INSTANCE_ID" = Some id_encrypted ->
  os_environ w !! "DISCORD_WEBHOOK_URL" = Some url_encrypted ->
  b64decode w id_encrypted = Ok id_blob ->
  os_environ w !! "DISCORD_PUBLIC_KEY" = Some key_encrypted ->
  b64decode w key_encrypted = Ok key_blob ->
  run (discord_stop_instance.lambda_handler fuel event context) w
  = (Raise (key_error "AWS_LAMBDA_FUNCTION_NAME"), []) /\
  run (discord_check_instance.lambda_handler event context) w
  = (Raise (key_error "AWS_LAMBDA_FUNCTION_NAME"), []) /\
  run (lambda_handler ev context) w
  = (Raise (key_error "AWS_LAMBDA_FUNCTION_NAME"), []).
Proof.
  intros H0 H1 H2 H3 H4 H5 H6.
  repeat split; unfold_run; rewrite ?H2, ?H3, ?H5; step; rewrite H1; step;
    rewrite ?H4, ?H6; step; rewrite H0; reflexivity.
Qed.

Lemma missing_function_name_witness :
  run (discord_stop_instance.lambda_handler 3 JNull JNull)
      (Fault.unset "AWS_LAMBDA_FUNCTION_NAME" Fault.healthy)
  = (Raise (key_error "AWS_LAMBDA_FUNCTION_NAME"), []) /\
  run (discord_check_instance.lambda_handler JNull JNull)
      (Fault.unset "AWS_LAMBDA_FUNCTION_NAME" Fault.healthy)
  = (Raise (key_error "AWS_LAMBDA_FUNCTION_NAME"), []) /\
  run (lambda_handler (Double.request Double.ping_body Double.signed_headers) JNull)
      (Fault.unset "AWS_LAMBDA_FUNCTION_NAME" Fault.healthy)
  = (Raise (key_error "AWS_LAMBDA_FUNCTION_NAME"), []).
Proof.
  apply (missing_function_name (Fault.unset "AWS_LAMBDA_FUNCTION_NAME" Fault.healthy)
           3 (Double.request Double.ping_body Double.signed_headers) JNull JNull
           "aS0xMjM=" "aHR0cHM6Ly9ob29r" "a2V5"
           (Double.bytes "i-123") (Double.bytes "key"));
    reflexivity.
Defined.

(** X10. When the stop call is refused with one of the errors the worker's
    [except] clause names, the Stop worker raises the RuntimeError that wraps
    it and posts nothing: the user is not told. *)
Theorem stop_refused (w : World) (fuel : nat) (event context : json)
    (instance_id url : string) (pre : trace) (e : exn) :
  settings_resolve w instance_id url pre ->
  boto3_client w "ec2" = None ->
  ec2_stop_instances w [instance_id] = Some e ->
  isinstance e ec2_errors = true ->
  run (discord_stop_instance.lambda_handler fuel event context) w
  = (Raise (Exn RuntimeError ("EC2操作エラー: " +:+ str e) (Some e)),
     pre ++ [Ec2_stop_instances [instance_id]]).
Proof.
  intros (ie & ue & ib & ub & name & H1 & H2 & H3 & H4 & H5 & H6 & H7 & H8 & ->)
    Hec2 Hstop He.
  unfold_run.
  rewrite H1, H2. step. rewrite H3, H5. step. rewrite H4, H6. step.
  rewrite H7. step. rewrite H8. step. rewrite Hec2, Hstop. step.
  by rewrite He.
Qed.

Lemma stop_refused_witness :
  run (discord_stop_instance.lambda_handler 3 JNull JNull)
      (Fault.ec2_down Fault.access_denied Fault.healthy)
  = (Raise (Exn RuntimeError ("EC2操作エラー: " +:+ str Fault.access_denied)
                (Some Fault.access_denied)),
     [Kms_decrypt (Double.bytes "i-123") "fn";
      Kms_decrypt (Double.bytes "https://hook") "fn"]
     ++ [Ec2_stop_instances ["i-123"]]).
Proof.
  apply (stop_refused (Fault.ec2_down Fault.access_denied Fault.healthy)
           3 JNull JNull "i-123" "https://hook").
  - exists "aS0xMjM=", "aHR0cHM6Ly9ob29r", (Double.bytes "i-123"),
      (Double.bytes "https://hook"), "fn".
    repeat split; reflexivity.
  - reflexivity.
  - reflexivity.
  - reflexivity.
Defined.

(** X11. When the describe call is refused with one of the errors the
    [except] clause names, the Status worker raises the RuntimeError that
    wraps it and posts nothing. *)
Theorem describe_refused (w : World) (event context : json)
    (instance_id url : string) (pre : trace) (e : exn) :
  settings_resolve w instance_id url pre ->
  boto3_client w "ec2" = None ->
  ec2_describe_instances w 0 [instance_id] = Err e ->
  isinstance e ec2_errors = true ->
  run (discord_check_instance.lambda_handler event context) w
  = (Raise (Exn RuntimeError ("EC2操作エラー: " +:+ str e) (Some e)),
     pre ++ [Ec2_describe_instances [instance_id]]).
Proof.
  intros (ie & ue & ib & ub & name & H1 & H2 & H3 & H4 & H5 & H6 & H7 & H8 & ->)
    Hec2 Hread He.
  unfold_run.
  rewrite H1, H2. step. rewrite H3, H5. step. rewrite H4, H6. step.
  rewrite H7. step. rewrite H8. step. rewrite Hec2. step. rewrite Hread. step.
  by rewrite He.
Qed.

Lemma describe_refused_witness :
  run (discord_check_instance.lambda_handler JNull JNull)
      (Fault.ec2_down Fault.access_denied Fault.healthy)
  = (Raise (Exn RuntimeError ("EC2操作エラー: " +:+ str Fault.access_denied)
                (Some Fault.access_denied)),
     [Kms_decrypt (Double.bytes "i-123") "fn";
      Kms_decrypt (Double.bytes "https://hook") "fn"]
     ++ [Ec2_describe_instances ["i-123"]]).
Proof.
  apply (describe_refused (Fault.ec2_down Fault.access_denied Fault.healthy)
           JNull JNull "i-123" "https://hook").
  - exists "aS0xMjM=", "aHR0cHM6Ly9ob29r", (Double.bytes "i-123"),
      (Double.bytes "https://hook"), "fn".
    repeat split; reflexivity.
  - reflexivity.
  - reflexivity.
  - reflexivity.
Defined.

(** X12. When the describe call answers with no reservation, or with a
    first reservation that holds no instance, the Status worker ends in the
    IndexError of the [[0]] lookup: IndexError is not in the [except]
    clause, so it is not wrapped, and nothing is posted. *)
Theorem describe_answers_nothing (w : World) (event context : json)
    (instance_id url : string) (pre : trace) (r : describe_response) :
  settings_resolve w instance_id url pre ->
  boto3_client w "ec2" = None ->
  ec2_describe_instances w 0 [instance_id] = Ok r ->
  Reservations r = [] \/
  (exists rv rest, Reservations r = rv :: rest /\ Instances rv = []) ->
  run (discord_check_instance.lambda_handler event context) w
  = (Raise (Exn IndexError "list index out of range" None),
     pre ++ [Ec2_describe_instances [instance_id]]).
Proof.
  intros (ie & ue & ib & ub & name & H1 & H2 & H3 & H4 & H5 & H6 & H7 & H8 & ->)
    Hec2 Hread Hempty.
  assert (Hfirst : first_instance r
                   = Err (Exn IndexError "list index out of range" None)).
  { unfold first_instance.
    destruct Hempty as [-> | (rv & rest & -> & ->)]; reflexivity. }
  unfold_run.
  rewrite H1, H2. step. rewrite H3, H5. step. rewrite H4, H6. step.
  rewrite H7. step. rewrite H8. step. rewrite Hec2. step. rewrite Hread. step.
  rewrite Hfirst. reflexivity.
Qed.

Lemma describe_answers_nothing_witness :
  run (discord_check_instance.lambda_handler JNull JNull)
      (Fault.describing {| Reservations := [] |} Fault.healthy)
  = (Raise (Exn IndexError "list index out of range" None),
     [Kms_decrypt (Double.bytes "i-123") "fn";
      Kms_decrypt (Double.bytes "https://hook") "fn"]
     ++ [Ec2_describe_instances ["i-123"]]).
Proof.
  apply (describe_answers_nothing
           (Fault.describing {| Reservations := [] |} Fault.healthy)
           JNull JNull "i-123" "https://hook" _ {| Reservations := [] |}).
  - exists "aS0xMjM=", "aHR0cHM6Ly9ob29r", (Double.bytes "i-123"),
      (Double.bytes "https://hook"), "fn".
    repeat split; reflexivity.
  - reflexivity.
  - reflexivity.
  - by left.
Defined.

(** X13. A running instance without a public address (no
    ["PublicIpAddress"] in the answer) is reported with the text "None" where
    the address would be: the message ends in a carriage return and "None",
    and the worker returns "running None". *)
Theorem running_without_address (w : World) (event context : json)
    (instance_id url : string) (pre : trace) (r : describe_response)
    (i : instance) :
  settings_resolve w instance_id url pre ->
  boto3_client w "ec2" = None ->
  ec2_describe_instances w 0 [instance_id] = Ok r ->
  first_instance r = Ok i ->
  State_Name i = "running" ->
  PublicIpAddress i = None ->
  requests_post w url
    (JDict [("content", JStr ("インスタンス【" +:+ instance_id +:+ "】は起動済みです"
                              +:+ discord_check_instance.CR +:+ "None"));
            ("flags", JInt 4096)]) = None ->
  run (discord_check_instance.lambda_handler event context) w
  = (Return "running None",
     pre ++ [Ec2_describe_instances [instance_id];
             Requests_post url
               (JDict [("content", JStr ("インスタンス【" +:+ instance_id
                                         +:+ "】は起動済みです"
                                         +:+ discord_check_instance.CR +:+ "None"));
                       ("flags", JInt 4096)])]).
Proof.
  intros (ie & ue & ib & ub & name & H1 & H2 & H3 & H4 & H5 & H6 & H7 & H8 & ->)
    Hec2 Hread Hfirst Hstate Hip Hpost.
  unfold_run.
  rewrite H1, H2. step. rewrite H3, H5. step. rewrite H4, H6. step.
  rewrite H7. step. rewrite H8. step. rewrite Hec2. step. rewrite Hread. step.
  rewrite Hfirst. step. rewrite Hstate, Hip. step.
  unfold discord_check_instance.message, discord_check_instance.running_content.
  step. rewrite Hpost. reflexivity.
Qed.

Lemma running_without_address_witness :
  run (discord_check_instance.lambda_handler JNull JNull)
      (Double.world Double.env [("running", None)] None None)
  = (Return "running None",
     [Kms_decrypt (Double.bytes "i-123") "fn";
      Kms_decrypt (Double.bytes "https://hook") "fn"]
     ++ [Ec2_describe_instances ["i-123"];
         Requests_post "https://hook"
           (JDict [("content", JStr ("インスタンス【" +:+ "i-123" +:+ "】は起動済みです"
                                     +:+ discord_check_instance.CR +:+ "None"));
                   ("flags", JInt 4096)])]).
Proof.
  apply (running_without_address
           (Double.world Double.env [("running", None)] None None)
           JNull JNull "i-123" "https://hook" _
           (Double.answer "running" None)
           {| State_Name := "running"; PublicIpAddress := None |}).
  - exists "aS0xMjM=", "aHR0cHM6Ly9ob29r", (Double.bytes "i-123"),
      (Double.bytes "https://hook"), "fn".
    repeat split; reflexivity.
  - reflexivity.
  - reflexivity.
  - reflexivity.
  - reflexivity.
  - reflexivity.
  - reflexivity.
Defined.

(** ** What a worker run can contain *)

(** X14. The Status worker is read-only: in every run it makes at most one
    describe call and at most one POST, and never a stop call, a start call,
    a Lambda invocation or a sleep. *)
Theorem status_is_read_only (w : World) (event context : json) :
  (count is_describe (run (discord_check_instance.lambda_handler event context) w).2 <= 1)%nat /\
  (count is_post (run (discord_check_instance.lambda_handler event context) w).2 <= 1)%nat /\
  count is_stop (run (discord_check_instance.lambda_handler event context) w).2 = 0%nat /\
  count is_start (run (discord_check_instance.lambda_handler event context) w).2 = 0%nat /\
  count is_invoke (run (discord_check_instance.lambda_handler event context) w).2 = 0%nat /\
  count is_sleep (run (discord_check_instance.lambda_handler event context) w).2 = 0%nat.
Proof.
  unfold_run. split_all_answers; cbn; repeat split; lia.
Qed.

Lemma in_phase_order_sound (tr : trace) : forall from,
  in_phase_order from tr = true ->
  (forall c, c ∈ tr -> (from <= phase c <= 2)%nat) /\
  (forall i j c c', (i < j)%nat -> tr !! i = Some c -> tr !! j = Some c' ->
                    (phase c <= phase c')%nat).
Proof.
  induction tr as [|c0 tr IH]; intros from Hord.
  - split; [intros c Hc; by apply elem_of_nil in Hc | intros i j c c' _ Hi; done].
  - simpl in Hord. apply andb_prop in Hord as [Hhead Htail].
    apply andb_prop in Hhead as [Hlo Hhi].
    apply Nat.leb_le in Hlo, Hhi.
    destruct (IH _ Htail) as [Hall Hpairs].
    split.
    + intros c Hc. apply elem_of_cons in Hc as [-> | Hc]; [lia|].
      specialize (Hall c Hc). lia.
    + intros i j c c' Hij Hi Hj.
      destruct j as [|j]; [lia|]. simpl in Hj.
      destruct i as [|i].
      * injection Hi as <-.
        assert (c' ∈ tr) as Hin by (by eapply list_elem_of_lookup_2).
        specialize (Hall c' Hin). lia.
      * simpl in Hi. apply (Hpairs i j); [lia | done | done].
Qed.

(** X15. In every run of the Stop worker and of the Status worker the calls
    come in the order decrypt, then EC2 (and sleeps), then notify: no call
    of an earlier phase follows a call of a later one; in particular the
    instance is never touched before the settings were decrypted, nor after
    a POST. *)
Theorem worker_calls_are_in_phase_order (w : World) (fuel : nat)
    (event context : json) :
  let stop := (run (discord_stop_instance.lambda_handler fuel event context) w).2 in
  let status := (run (discord_check_instance.lambda_handler event context) w).2 in
  (forall i j c c', (i < j)%nat -> stop !! i = Some c -> stop !! j = Some c' ->
                    (phase c <= phase c')%nat) /\
  (forall i j c c', (i < j)%nat -> status !! i = Some c -> status !! j = Some c' ->
                    (phase c <= phase c')%nat).
Proof.
  cbv zeta. split.
  - apply (in_phase_order_sound _ 0%nat).
    unfold_run. split_all_answers; reflexivity.
  - apply (in_phase_order_sound _ 0%nat).
    unfold_run. split_all_answers; reflexivity.
Qed.

Lemma kms_context_is_sound (name : option string) (tr : trace) :
  kms_context_is name tr = true ->
  forall blob given, Kms_decrypt blob given ∈ tr -> name = Some given.
Proof.
  unfold kms_context_is. rewrite forallb_forall.
  intros Hall blob given Hin. apply list_elem_of_In in Hin.
  specialize (Hall _ Hin). simpl in Hall.
  destruct name as [expected|]; [|done].
  apply String.eqb_eq in Hall. by subst.
Qed.

(** X16. Every KMS decryption any of the three handlers makes, in any run,
    passes the value of AWS_LAMBDA_FUNCTION_NAME as its encryption context
    (so none is made when that variable is not set). *)
Theorem kms_context_is_the_function_name (w : World) (fuel : nat) (ev : event)
    (event context : json) :
  (forall blob given,
     Kms_decrypt blob given ∈ (run (lambda_handler ev context) w).2 ->
     os_environ w !! "AWS_LAMBDA_FUNCTION_NAME" = Some given) /\
  (forall blob given,
     Kms_decrypt blob given
       ∈ (run (discord_stop_instance.lambda_handler fuel event context) w).2 ->
     os_environ w !! "AWS_LAMBDA_FUNCTION_NAME" = Some given) /\
  (forall blob given,
     Kms_decrypt blob given
       ∈ (run (discord_check_instance.lambda_handler event context) w).2 ->
     os_environ w !! "AWS_LAMBDA_FUNCTION_NAME" = Some given).
Proof.
  repeat split; apply kms_context_is_sound;
    unfold_run;
    destruct (os_environ w !! "AWS_LAMBDA_FUNCTION_NAME") as [name|] eqn:Hname;
    split_all_answers; cbn; rewrite ?String.eqb_refl; reflexivity.
Qed.

(** ** The polling loop, entered *)

Lemma while_step_stopped (w : World) (fuel : nat) (instance_id : string)
    (tr : trace) :
  reads_state w (count is_describe tr) instance_id "stopped" ->
  discord_stop_instance.while_instance_running (S fuel) instance_id true w tr
  = (Return tt, tr ++ [Ec2_describe_instances [instance_id]]).
Proof.
  intros (r & i & Hread & Hfirst & Hstate).
  cbn [discord_stop_instance.while_instance_running].
  unfold_run. rewrite Hread. step. rewrite Hfirst. step. rewrite Hstate. step.
  rewrite while_false. reflexivity.
Qed.

Lemma while_step_waiting (w : World) (fuel : nat) (instance_id state : string)
    (tr : trace) :
  reads_state w (count is_describe tr) instance_id state ->
  state <> "stopped" ->
  discord_stop_instance.while_instance_running (S fuel) instance_id true w tr
  = discord_stop_instance.while_instance_running fuel instance_id true w
      (tr ++ [Ec2_describe_instances [instance_id]; Time_sleep 5]).
Proof.
  intros (r & i & Hread & Hfirst & Hstate) Hne.
  cbn [discord_stop_instance.while_instance_running].
  unfold_run. rewrite Hread. step. rewrite Hfirst. step. rewrite Hstate.
  apply String.eqb_neq in Hne. rewrite Hne. step.
  unfold log. by rewrite <- app_assoc.
Qed.

Lemma count_app (p : call -> bool) (a b : trace) :
  count p (a ++ b) = (count p a + count p b)%nat.
Proof. induction a as [|c a IH]; simpl; [done|]. rewrite IH. lia. Qed.

(** X17. The loop of lines 72-78, once entered ([instance_running] true):
    if the next [k] reads find the instance in a state other than "stopped"
    and the read after them finds it "stopped", then with fuel for more than
    [k] rounds the loop returns, having made [k + 1] describe calls with a
    sleep of 5 after each of the first [k], and nothing else; with fuel for
    [k] rounds or fewer it is cut off. *)
Theorem polling_stops_at_first_stopped (w : World) (instance_id : string)
    (k : nat) : forall (fuel : nat) (tr : trace),
  (forall j, (j < k)%nat ->
     exists state, reads_state w (count is_describe tr + j) instance_id state /\
                   state <> "stopped") ->
  reads_state w (count is_describe tr + k) instance_id "stopped" ->
  ((k < fuel)%nat ->
   discord_stop_instance.while_instance_running fuel instance_id true w tr
   = (Return tt, tr ++ polls k instance_id)) /\
  ((fuel <= k)%nat ->
   (discord_stop_instance.while_instance_running fuel instance_id true w tr).1
   = OutOfFuel).
Proof.
  induction k as [|k IH]; intros fuel tr Hwait Hstop.
  - rewrite Nat.add_0_r in Hstop. split; intros Hfuel.
    + destruct fuel as [|fuel]; [lia|]. by apply while_step_stopped.
    + by replace fuel with 0%nat by lia.
  - destruct fuel as [|fuel]; [split; [lia | done]|].
    destruct (Hwait 0%nat ltac:(lia)) as (state & Hread & Hne).
    rewrite Nat.add_0_r in Hread.
    rewrite (while_step_waiting w fuel instance_id state tr Hread Hne).
    assert (Hcount : count is_describe
                       (tr ++ [Ec2_describe_instances [instance_id]; Time_sleep 5])
                     = S (count is_describe tr)).
    { rewrite count_app. simpl. lia. }
    destruct (IH fuel (tr ++ [Ec2_describe_instances [instance_id]; Time_sleep 5]))
      as [Hdone Hcut].
    + intros j Hj. rewrite Hcount.
      replace (S (count is_describe tr) + j)%nat
        with (count is_describe tr + S j)%nat by lia.
      apply Hwait. lia.
    + rewrite Hcount.
      by replace (S (count is_describe tr) + k)%nat
        with (count is_describe tr + S k)%nat by lia.
    + split; intros Hfuel.
      * rewrite Hdone by lia. simpl. by rewrite <- app_assoc.
      * apply Hcut. lia.
Qed.

Lemma polling_stops_at_first_stopped_witness :
  ((2 < 5)%nat ->
   discord_stop_instance.while_instance_running 5 "i-123" true Fault.healthy []
   = (Return tt, [] ++ polls 2 "i-123")) /\
  ((5 <= 2)%nat ->
   (discord_stop_instance.while_instance_running 5 "i-123" true Fault.healthy []).1
   = OutOfFuel).
Proof.
  apply (polling_stops_at_first_stopped Fault.healthy "i-123" 2 5 []).
  - intros j Hj. exists "stopping". split; [|discriminate].
    destruct j as [|[|j]]; [| |lia];
      by exists (Double.answer "stopping" None),
                {| State_Name := "stopping"; PublicIpAddress := None |}.
  - by exists (Double.answer "stopped" None),
              {| State_Name := "stopped"; PublicIpAddress := None |}.
Defined.

(** ** The Stop worker, all going well *)

(** X18. When the settings resolve, the stop call is accepted and the POST
    goes through, the Stop worker returns "-" after exactly four calls: the
    two decryptions, one stop call for the decrypted instance id, and one
    POST, to the decrypted URL, of the stopped message for that id. *)
Theorem stop_succeeds (w : World) (fuel : nat) (event context : json)
    (instance_id url : string) (pre : trace) :
  settings_resolve w instance_id url pre ->
  boto3_client w "ec2" = None ->
  ec2_stop_instances w [instance_id] = None ->
  requests_post w url
    (JDict [("content", JStr ("インスタンス【" +:+ instance_id +:+ "】が停止しました"));
            ("flags", JInt 4096)]) = None ->
  run (discord_stop_instance.lambda_handler fuel event context) w
  = (Return "-",
     pre ++ [Ec2_stop_instances [instance_id];
             Requests_post url
               (JDict [("content",
                        JStr ("インスタンス【" +:+ instance_id +:+ "】が停止しました"));
                       ("flags", JInt 4096)])]) /\
  length pre = 2%nat.
Proof.
  intros (ie & ue & ib & ub & name & H1 & H2 & H3 & H4 & H5 & H6 & H7 & H8 & ->)
    Hec2 Hstop Hpost.
  split; [|reflexivity].
  unfold_run.
  rewrite H1, H2. step. rewrite H3, H5. step. rewrite H4, H6. step.
  rewrite H7. step. rewrite H8. step. rewrite Hec2, Hstop. step.
  rewrite while_false. unfold_run. step.
  unfold discord_stop_instance.stopped_message. rewrite Hpost. reflexivity.
Qed.

Lemma stop_succeeds_witness :
  run (discord_stop_instance.lambda_handler 0 JNull JNull) Fault.healthy
  = (Return "-",
     [Kms_decrypt (Double.bytes "i-123") "fn";
      Kms_decrypt (Double.bytes "https://hook") "fn"]
     ++ [Ec2_stop_instances ["i-123"];
         Requests_post "https://hook"
           (JDict [("content", JStr ("インスタンス【" +:+ "i-123" +:+ "】が停止しました"));
                   ("flags", JInt 4096)])]) /\
  length [Kms_decrypt (Double.bytes "i-123") "fn";
          Kms_decrypt (Double.bytes "https://hook") "fn"] = 2%nat.
Proof.
  apply (stop_succeeds Fault.healthy 0 JNull JNull "i-123" "https://hook").
  - exists "aS0xMjM=", "aHR0cHM6Ly9ob29r", (Double.bytes "i-123"),
      (Double.bytes "https://hook"), "fn".
    repeat split; reflexivity.
  - reflexivity.
  - reflexivity.
  - reflexivity.
Defined.

(** ** Registration and dispatch *)

(** X19. The dispatcher handles exactly what the registration script
    offers: for a payload that names the registered command and a string
    action, the dispatcher triggers a worker if and only if the action is one
    of the registered choices; otherwise it answers 400 "Unhandled command"
    and makes no call. *)
Theorem registered_choices_are_dispatched (w : World) (body : json)
    (action : string) (tr : trace) :
  command_of body (registered_name register_slash_command.commands) (JStr action) ->
  boto3_client w "lambda" = None ->
  (JStr action ∈ choice_values register_slash_command.commands <->
   exists target, (command_handler body w tr).2 = tr ++ [Lambda_invoke target "Event"]) /\
  (JStr action ∉ choice_values register_slash_command.commands <->
   command_handler body w tr
   = (Return {| statusCode := 400; headers := None;
                discord_webhook_app.body := json_dumps (JStr "Unhandled command") |},
      tr)).
Proof.
  intros Hcmd Hclient.
  rewrite (command_handler_run w body _ (JStr action) tr Hcmd).
  change (registered_name register_slash_command.commands) with (JStr "server").
  change (choice_values register_slash_command.commands)
    with [JStr "start"; JStr "stop"; JStr "status"].
  assert (Hchoice : JStr action ∈ [JStr "start"; JStr "stop"; JStr "status"] <->
                    action = "start" \/ action = "stop" \/ action = "status").
  { rewrite !elem_of_cons, elem_of_nil. split.
    - intros [[= ->] | [[= ->] | [[= ->] | []]]]; auto.
    - intros [-> | [-> | ->]]; auto. }
  assert (Hlen : forall target, tr ++ [Lambda_invoke target "Event"] <> tr).
  { intros target Heq. apply (f_equal length) in Heq.
    rewrite length_app in Heq. simpl in Heq. lia. }
  cbn [eq_str]. rewrite String.eqb_refl.
  destruct (String.eqb_spec action "start") as [->|Hs];
    [|destruct (String.eqb_spec action "stop") as [->|Hp];
      [|destruct (String.eqb_spec action "status") as [->|Ht]]].
  1-3: unfold_run; rewrite Hclient; step;
       (destruct (lambda_invoke w _ "Event"); step;
        (split; split;
         [ intros _; by eexists
         | intros _; apply Hchoice; auto
         | intros Hnot; exfalso; apply Hnot, Hchoice; auto
         | intros [= Heq]; try discriminate; exfalso; by eapply Hlen ])).
  split; split.
  - intros Hin. apply Hchoice in Hin. exfalso. intuition.
  - intros [target Htr]. exfalso. cbn in Htr. symmetry in Htr. by eapply Hlen.
  - reflexivity.
  - intros _ Hin. apply Hchoice in Hin. intuition.
Qed.

Lemma registered_choices_are_dispatched_witness :
  (JStr "status" ∈ choice_values register_slash_command.commands <->
   exists target,
     (command_handler (Double.command_payload "server" "status") Fault.healthy []).2
     = [] ++ [Lambda_invoke target "Event"]) /\
  (JStr "status" ∉ choice_values register_slash_command.commands <->
   command_handler (Double.command_payload "server" "status") Fault.healthy []
   = (Return {| statusCode := 400; headers := None;
                body := json_dumps (JStr "Unhandled command") |}, [])).
Proof.
  apply (registered_choices_are_dispatched Fault.healthy
           (Double.command_payload "server" "status") "status" []).
  - by repeat eexists.
  - reflexivity.
Defined.

(** X20. The registration script sends nothing unless both DISCORD_APP_ID
    and DISCORD_TOKEN are set: it raises the KeyError of the first one
    missing (the application id is read first).  When both are set it sends
    exactly one POST, of the command description, to the commands endpoint of
    that application, authorised as "Bot " followed by the token, and prints
    the answer only if the POST returned. *)
Theorem registration_needs_both_variables (environ : gmap string string)
    (post : register_slash_command.http_request -> outcome string) :
  match environ !! "DISCORD_APP_ID", environ !! "DISCORD_TOKEN" with
  | None, _ =>
      register_slash_command.main environ post
      = (Raise (key_error "DISCORD_APP_ID"), [])
  | Some _, None =>
      register_slash_command.main environ post
      = (Raise (key_error "DISCORD_TOKEN"), [])
  | Some app_id, Some token =>
      exists request rest,
        (register_slash_command.main environ post).2
        = register_slash_command.Post request :: rest /\
        register_slash_command.url request
        = "https://discord.com/api/v10/applications/" +:+ app_id +:+ "/commands" /\
        register_slash_command.headers request !! 0%nat
        = Some ("Authorization", "Bot " +:+ token) /\
        register_slash_command.data request
        = json_dumps register_slash_command.commands /\
        match post request with
        | Ok content =>
            (register_slash_command.main environ post).1 = Return tt /\
            rest = [register_slash_command.Print_content content]
        | Err e =>
            (register_slash_command.main environ post).1 = Raise e /\ rest = []
        end
  end.
Proof.
  unfold register_slash_command.main.
  destruct (environ !! "DISCORD_APP_ID") as [app_id|]; [|done].
  destruct (environ !! "DISCORD_TOKEN") as [token|]; [|done].
  cbv zeta.
  match goal with |- context [post ?r] => exists r end.
  destruct (post _) as [content|e]; eexists; by repeat split.
Qed.
